(** * invoice-parser: the extraction pipeline of [parser.py]

    A shallow embedding of [extract_text_from_pdf], [pdf_to_base64_image]
    and [parse_invoice_with_claude], with the properties of the
    specification stated and proved over it.

    Conventions.
    - A Python [str] is represented by its UTF-8 encoding, a [string] of
      bytes; [py_len] counts code points, as [len] does.
    - What the module imports (PyPDF2, pdf2image, PIL, the Anthropic
      client, [json]) is a collaborator: the record [env] holds one
      function per call the source makes to it.
    - An exception is a value of [exn]; every instance stands for a
      subclass of Python's [Exception].
    - The uploaded file is an open in-memory binary stream, as
      [st.file_uploader] of [app.py] hands over. *)

From Stdlib Require Import String Ascii List Bool Arith NArith ZArith Lia DecimalString.
Import ListNotations.
Open Scope string_scope.

(** ** Python strings *)

Definition code (c : ascii) : N := N_of_ascii c.

(** [len(s)]: the bytes that are not UTF-8 continuation bytes. *)
Definition continuation (c : ascii) : bool := (N.land (code c) 192 =? 128)%N.

Fixpoint py_len (s : string) : nat :=
  match s with
  | EmptyString => 0
  | String c r => if continuation c then py_len r else S (py_len r)
  end.

Fixpoint rev_string (s acc : string) : string :=
  match s with
  | EmptyString => acc
  | String c r => rev_string r (String c acc)
  end.

(** [str.isspace] on one character, by the bytes of its encoding:
    U+0009..000D, U+001C..0020, U+0085, U+00A0, U+1680, U+2000..200A,
    U+2028, U+2029, U+202F, U+205F, U+3000. *)
Definition space1 (a : N) : bool :=
  (((9 <=? a) && (a <=? 13)) || ((28 <=? a) && (a <=? 32)))%N.

Definition space2 (a b : N) : bool :=
  ((a =? 194) && ((b =? 133) || (b =? 160)))%N.

Definition space3 (a b c : N) : bool :=
  (((a =? 225) && (b =? 154) && (c =? 128))
   || ((a =? 226) && (b =? 128)
       && (((128 <=? c) && (c <=? 138)) || (c =? 168) || (c =? 169) || (c =? 175)))
   || ((a =? 226) && (b =? 129) && (c =? 159))
   || ((a =? 227) && (b =? 128) && (c =? 128)))%N.

(** The rest of [s] after one leading whitespace character, if any. *)
Definition drop_space_head (s : string) : option string :=
  match s with
  | String c1 r1 =>
      if space1 (code c1) then Some r1
      else match r1 with
           | String c2 r2 =>
               if space2 (code c1) (code c2) then Some r2
               else match r2 with
                    | String c3 r3 =>
                        if space3 (code c1) (code c2) (code c3) then Some r3 else None
                    | EmptyString => None
                    end
           | EmptyString => None
           end
  | EmptyString => None
  end.

(** The same from the end, on the reversed string. *)
Definition drop_space_last (s : string) : option string :=
  match s with
  | String c1 r1 =>
      if space1 (code c1) then Some r1
      else match r1 with
           | String c2 r2 =>
               if space2 (code c2) (code c1) then Some r2
               else match r2 with
                    | String c3 r3 =>
                        if space3 (code c3) (code c2) (code c1) then Some r3 else None
                    | EmptyString => None
                    end
           | EmptyString => None
           end
  | EmptyString => None
  end.

Fixpoint drop_while (f : string -> option string) (fuel : nat) (s : string) : string :=
  match fuel with
  | 0 => s
  | S n => match f s with
           | Some r => drop_while f n r
           | None => s
           end
  end.

Definition lstrip (s : string) : string := drop_while drop_space_head (String.length s) s.

Definition rstrip (s : string) : string :=
  rev_string (drop_while drop_space_last (String.length s) (rev_string s EmptyString)) EmptyString.

(** [s.strip()] *)
Definition strip (s : string) : string := rstrip (lstrip s).

(** [s.startswith(p)] *)
Fixpoint startswith (p s : string) : bool :=
  match p, s with
  | EmptyString, _ => true
  | String a p', String b s' => Ascii.eqb a b && startswith p' s'
  | String _ _, EmptyString => false
  end.

Fixpoint drop (n : nat) (s : string) : string :=
  match n, s with
  | 0, _ => s
  | S n', String _ r => drop n' r
  | S _, EmptyString => EmptyString
  end.

(** [s.partition(sep)] at the leftmost occurrence of [sep]: the text
    before it and the text after it, [None] when [sep] does not occur. *)
Fixpoint partition (sep s : string) : option (string * string) :=
  if startswith sep s then Some (EmptyString, drop (String.length sep) s)
  else match s with
       | EmptyString => None
       | String c r =>
           match partition sep r with
           | Some (a, b) => Some (String c a, b)
           | None => None
           end
       end.

(** [sep in s] *)
Definition contains (sep s : string) : bool :=
  match partition sep s with Some _ => true | None => false end.

(** [s.split(sep)] for a non-empty [sep]: cut at the leftmost occurrence,
    go on in what follows it.  The fuel is the length of the text,
    which is enough ([split_fuel_enough]). *)
Fixpoint split_fuel (fuel : nat) (sep s : string) : list string :=
  match partition sep s with
  | None => [s]
  | Some (a, b) =>
      match fuel with
      | 0 => [a; b]
      | S n => a :: split_fuel n sep b
      end
  end.

Definition split (sep s : string) : list string := split_fuel (String.length s) sep s.

(** The last character of [s], for [s.endswith(c)]. *)
Fixpoint last_char (s : string) : option ascii :=
  match s with
  | EmptyString => None
  | String c EmptyString => Some c
  | String _ r => last_char r
  end.

Definition nl : string := String (ascii_of_nat 10) EmptyString.
Definition dq : string := String (ascii_of_nat 34) EmptyString.

(** [q s] is [s] between double quotes. *)
Definition q (s : string) : string := dq ++ s ++ dq.

(** ** Python values, exceptions, results *)

(** What [json.loads] can return.  A float is kept as the numeral it
    was read from: rounding to binary64 is not modelled. *)
#[warning="-register-all"]
Inductive pyvalue : Type :=
| PyNone
| PyBool (b : bool)
| PyInt (z : Z)
| PyFloat (numeral : string)
| PyStr (s : string)
| PyList (l : list pyvalue)
| PyDict (d : list (string * pyvalue)).

(** [d.get(k)] on the items of a dict, in insertion order. *)
Fixpoint dict_get (k : string) (d : list (string * pyvalue)) : option pyvalue :=
  match d with
  | [] => None
  | (k', v) :: r => if String.eqb k k' then Some v else dict_get k r
  end.

(** [d[k] = v]: an existing key keeps its place. *)
Fixpoint dict_set (k : string) (v : pyvalue) (d : list (string * pyvalue))
  : list (string * pyvalue) :=
  match d with
  | [] => [(k, v)]
  | (k', v') :: r => if String.eqb k k' then (k, v) :: r else (k', v') :: dict_set k v r
  end.

Inductive exn_class : Type :=
| JSONDecodeError
| IndexError
| AttributeError
| UnboundLocalError
| OtherException (name : string).

(** An instance of [Exception]: its class and [str(e)]. *)
Record exn : Type := mkExn { exn_class_of : exn_class; exn_str : string }.

Definition is_JSONDecodeError (e : exn) : bool :=
  match exn_class_of e with JSONDecodeError => true | _ => false end.

Inductive res (A : Type) : Type :=
| Ok (a : A)
| Raise (e : exn).
Arguments Ok {A} a.
Arguments Raise {A} e.

Definition res_bind {A B} (r : res A) (k : A -> res B) : res B :=
  match r with
  | Ok a => k a
  | Raise e => Raise e
  end.

(** [l[i]] *)
Definition index {A} (l : list A) (i : nat) : res A :=
  match nth_error l i with
  | Some x => Ok x
  | None => Raise (mkExn IndexError "list index out of range")
  end.

(** ** The uploaded file, the requests, the trace of calls *)

(** An open [BytesIO]: its buffer and its read cursor. *)
Record stream : Type := mkStream { data : list Byte.byte; pos : nat }.

Definition image : Type := list Byte.byte.

Inductive part : Type :=
| TextPart (text : string)
| ImagePart (source_type media_type image_data : string).

Inductive content : Type :=
| Text (s : string)
| Parts (l : list part).

Record message : Type := mkMessage { role : string; message_content : content }.

Record request : Type :=
  mkRequest { model : string; max_tokens : Z; messages : list message }.

(** A block of [response.content]: only a text block has [.text]. *)
Inductive content_block : Type :=
| TextBlock (text : string)
| OtherBlock (type_name : string).

(** One entry per call that leaves the module, in program order. *)
Inductive event : Type :=
| Call_PdfReader
| Call_read
| Call_seek (offset : nat)
| Call_convert_from_bytes (pdf_bytes : list Byte.byte)
| Call_save (img : image)
| Call_messages_create (req : request)
| Call_print (line : string).

Record world : Type := mkWorld { pdf_file : stream; trace : list event }.

(** The collaborators.  [PdfReader] gives the pages as the outcomes of
    their [extract_text()], in order, and the place where it leaves
    the cursor of the stream; it may raise itself. *)
Record env : Type := mkEnv {
  PdfReader : stream -> res (list (res string)) * nat;
  convert_from_bytes : list Byte.byte -> res (list image);
  save_png : image -> res (list Byte.byte);
  messages_create : request -> res (list content_block);
  json_loads : string -> res pyvalue
}.

(** ** State and exceptions *)

Definition M (A : Type) : Type := world -> res A * world.

Definition ret {A} (a : A) : M A := fun w => (Ok a, w).

Definition bind {A B} (m : M A) (k : A -> M B) : M B :=
  fun w => match m w with
           | (Ok a, w') => k a w'
           | (Raise e, w') => (Raise e, w')
           end.

Definition lift {A} (r : res A) : M A := fun w => (r, w).

Definition log (ev : event) : M unit :=
  fun w => (Ok tt, mkWorld (pdf_file w) (trace w ++ [ev])).

(** [try: m  except Exception as e: h e] *)
Definition try_except {A} (m : M A) (h : exn -> M A) : M A :=
  fun w => match m w with
           | (Ok a, w') => (Ok a, w')
           | (Raise e, w') => h e w'
           end.

Declare Scope py_scope.
Delimit Scope py_scope with py.
Notation "x <- m ;; k" := (bind m (fun x => k))
  (at level 61, m at next level, right associativity) : py_scope.
Notation "m ;; k" := (bind m (fun _ => k))
  (at level 61, right associativity) : py_scope.
Notation "x <~ r ;; k" := (res_bind r (fun x => k))
  (at level 61, r at next level, right associativity) : py_scope.
Open Scope py_scope.

Definition print (line : string) : M unit := log (Call_print line).

(** [pdf_file.read()]: the bytes from the cursor on; the cursor moves
    to the end, or stays where it is when it is already past it. *)
Definition file_read : M (list Byte.byte) :=
  fun w =>
    let f := pdf_file w in
    (Ok (skipn (pos f) (data f)),
     mkWorld (mkStream (data f) (Nat.max (pos f) (List.length (data f))))
             (trace w ++ [Call_read])).

(** [pdf_file.seek(n)] *)
Definition file_seek (n : nat) : M unit :=
  fun w =>
    (Ok tt, mkWorld (mkStream (data (pdf_file w)) n) (trace w ++ [Call_seek n])).

(** [base64.standard_b64encode(b).decode('utf-8')] *)
Definition b64_alphabet : string :=
  "ABCDEFGHIJKLMNOPQRSTUVWXYZabcdefghijklmnopqrstuvwxyz0123456789+/".

Definition b64_char (n : N) : ascii :=
  match String.get (N.to_nat n) b64_alphabet with
  | Some c => c
  | None => "="%char
  end.

Fixpoint standard_b64encode (l : list Byte.byte) : string :=
  match l with
  | [] => EmptyString
  | [a] =>
      let x := Byte.to_N a in
      String (b64_char (x / 4)) (String (b64_char ((x mod 4) * 16)) "==")
  | [a; b] =>
      let x := Byte.to_N a in
      let y := Byte.to_N b in
      String (b64_char (x / 4))
        (String (b64_char ((x mod 4) * 16 + y / 16))
           (String (b64_char ((y mod 16) * 4)) "="))
  | a :: b :: c :: r =>
      let x := Byte.to_N a in
      let y := Byte.to_N b in
      let z := Byte.to_N c in
      String (b64_char (x / 4))
        (String (b64_char ((x mod 4) * 16 + y / 16))
           (String (b64_char ((y mod 16) * 4 + z / 64))
              (String (b64_char (z mod 64)) (standard_b64encode r))))
  end%N.

(** ** parser.py *)

Definition extraction_prompt : string :=
  String.concat nl
    [ EmptyString;
      "    Extract the following information from this invoice. ";
      "    Return ONLY a valid JSON object with these fields (use null if not found):";
      "    ";
      "    {";
      "        " ++ q "invoice_number" ++ ": " ++ q "string - the invoice/bill number" ++ ",";
      "        " ++ q "invoice_date" ++ ": " ++ q "string - date in YYYY-MM-DD format if possible" ++ ",";
      "        " ++ q "due_date" ++ ": " ++ q "string - payment due date in YYYY-MM-DD format if possible, null if not mentioned" ++ ",";
      "        " ++ q "vendor" ++ ": {";
      "            " ++ q "name" ++ ": " ++ q "string - seller/vendor company name" ++ ",";
      "            " ++ q "address" ++ ": " ++ q "string - vendor address" ++ ",";
      "            " ++ q "gstin" ++ ": " ++ q "string - GST identification number if present";
      "        },";
      "        " ++ q "buyer" ++ ": {";
      "            " ++ q "name" ++ ": " ++ q "string - buyer/customer name" ++ ",";
      "            " ++ q "address" ++ ": " ++ q "string - buyer address" ++ ", ";
      "            " ++ q "gstin" ++ ": " ++ q "string - buyer GSTIN if present";
      "        },";
      "        " ++ q "line_items" ++ ": [";
      "            {";
      "                " ++ q "description" ++ ": " ++ q "string - item/service description" ++ ",";
      "                " ++ q "hsn_code" ++ ": " ++ q "string - HSN/SAC code if present" ++ ",";
      "                " ++ q "quantity" ++ ": " ++ q "number" ++ ",";
      "                " ++ q "unit_price" ++ ": " ++ q "number" ++ ",";
      "                " ++ q "amount" ++ ": " ++ q "number - line total";
      "            }";
      "        ],";
      "        " ++ q "subtotal" ++ ": " ++ q "number - sum before taxes" ++ ",";
      "        " ++ q "tax_details" ++ ": {";
      "            " ++ q "cgst" ++ ": " ++ q "number - Central GST amount" ++ ",";
      "            " ++ q "sgst" ++ ": " ++ q "number - State GST amount" ++ ", ";
      "            " ++ q "igst" ++ ": " ++ q "number - Integrated GST amount" ++ ",";
      "            " ++ q "total_tax" ++ ": " ++ q "number - total tax amount";
      "        },";
      "        " ++ q "total_amount" ++ ": " ++ q "number - final payable amount" ++ ",";
      "        " ++ q "currency" ++ ": " ++ q "string - INR, USD, etc." ++ ",";
      "        " ++ q "payment_terms" ++ ": " ++ q "string - any payment terms mentioned" ++ ",";
      "        " ++ q "notes" ++ ": " ++ q "string - any additional notes or remarks";
      "    }";
      "    ";
      "    Important:";
      "    - Extract numbers as actual numbers, not strings";
      "    - For Indian invoices, look for GSTIN (15-character alphanumeric)";
      "    - HSN codes are typically 4-8 digit numbers";
      "    - If a field is not present in the invoice, use null";
      "    " ].

(** Truth value of a [str], and of a [str] or [None]. *)
Definition truthy (s : string) : bool :=
  match s with EmptyString => false | String _ _ => true end.

Definition truthy_opt (o : option string) : bool :=
  match o with Some s => truthy s | None => false end.

(** Lines 185-188: the reply without its code fence. *)
Definition strip_fences (response_text : string) : res string :=
  if contains "```json" response_text then
    a <~ index (split "```json" response_text) 1 ;;
    index (split "```" a) 0
  else if contains "```" response_text then
    a <~ index (split "```" response_text) 1 ;;
    index (split "```" a) 0
  else Ok response_text.

(** [block.text] *)
Definition block_text (b : content_block) : res string :=
  match b with
  | TextBlock t => Ok t
  | OtherBlock name =>
      Raise (mkExn AttributeError ("'" ++ name ++ "' object has no attribute 'text'"))
  end.

Definition text_messages (extracted_text : string) : list message :=
  [ mkMessage "user"
      (Text (extraction_prompt ++ nl ++ nl ++ "INVOICE TEXT:" ++ nl ++ extracted_text)) ].

Definition image_messages (base64_image : string) : list message :=
  [ mkMessage "user"
      (Parts [ TextPart (extraction_prompt ++ nl ++ nl ++ "See the invoice image below:");
               ImagePart "base64" "image/png" base64_image ]) ].

Definition no_signal_error : pyvalue :=
  PyDict [("error", PyStr "Could not process PDF - neither text nor image extraction worked")].

Definition decode_error (e : exn) (response_text : string) : pyvalue :=
  PyDict [("error", PyStr ("Failed to parse Claude's response as JSON: " ++ exn_str e));
          ("raw_response", PyStr response_text)].

Definition call_error (e : exn) : pyvalue :=
  PyDict [("error", PyStr ("API call failed: " ++ exn_str e))].

Definition unbound_response_text : exn :=
  mkExn UnboundLocalError
    "cannot access local variable 'response_text' where it is not associated with a value".

(** The two [except] clauses of lines 194-197, in their order.
    [response_text] is the local variable at the moment of the raise:
    [None] while it is unbound. *)
Definition handlers (response_text : option string) (e : exn) : res pyvalue :=
  if is_JSONDecodeError e then
    match response_text with
    | Some t => Ok (decode_error e t)
    | None => Raise unbound_response_text
    end
  else Ok (call_error e).

Section Pipeline.

Variable E : env.

(** The loop of lines 38-41 over the pages that are left. *)
Fixpoint page_loop (pages : list (res string)) (text : string) : res string :=
  match pages with
  | [] => Ok text
  | page :: rest =>
      page_text <~ page ;;
      page_loop rest (if truthy page_text then text ++ page_text ++ nl else text)
  end.

Definition call_PdfReader : M (list (res string)) :=
  fun w =>
    let '(r, cursor) := PdfReader E (pdf_file w) in
    (r, mkWorld (mkStream (data (pdf_file w)) cursor) (trace w ++ [Call_PdfReader])).

Definition extract_text_from_pdf : M string :=
  try_except
    (pages <- call_PdfReader ;;
     text <- lift (page_loop pages EmptyString) ;;
     ret (strip text))
    (fun e =>
       print ("Error extracting text: " ++ exn_str e) ;;
       ret EmptyString).

Definition call_convert_from_bytes (pdf_bytes : list Byte.byte) : M (list image) :=
  log (Call_convert_from_bytes pdf_bytes) ;; lift (convert_from_bytes E pdf_bytes).

Definition call_save (img : image) : M (list Byte.byte) :=
  log (Call_save img) ;; lift (save_png E img).

Definition pdf_to_base64_image : M (option string) :=
  try_except
    (pdf_bytes <- file_read ;;
     file_seek 0 ;;
     images <- call_convert_from_bytes pdf_bytes ;;
     match images with
     | img :: _ =>
         png <- call_save img ;;
         ret (Some (standard_b64encode png))
     | [] => ret None
     end)
    (fun e =>
       print ("Error converting PDF to image: " ++ exn_str e) ;;
       ret None).

(** Lines 137-171: the messages to send, or [None] where the source
    returns the no-signal error at once. *)
Definition build_messages : M (option (list message)) :=
  extracted_text <- extract_text_from_pdf ;;
  if (100 <? py_len extracted_text)%nat then
    ret (Some (text_messages extracted_text))
  else
    base64_image <- pdf_to_base64_image ;;
    if negb (truthy_opt base64_image) then ret None
    else ret (Some (image_messages (match base64_image with Some b => b | None => EmptyString end))).

Definition call_messages_create (req : request) : M (list content_block) :=
  log (Call_messages_create req) ;; lift (messages_create E req).

(** Lines 182-191 on the response: the value of [response_text] when
    the block ends or raises, and how it ends. *)
Definition decode_response (response : list content_block)
  : option string * res pyvalue :=
  match (block <~ index response 0 ;; block_text block) with
  | Raise e => (None, Raise e)
  | Ok t0 =>
      match strip_fences t0 with
      | Raise e => (Some t0, Raise e)
      | Ok t1 => (Some t1, json_loads E (strip t1))
      end
  end.

(** Lines 174-197. *)
Definition call_and_parse (msgs : list message) : M pyvalue :=
  fun w =>
    match call_messages_create (mkRequest "claude-sonnet-4-20250514" 2000 msgs) w with
    | (Raise e, w') => (handlers None e, w')
    | (Ok response, w') =>
        match decode_response response with
        | (_, Ok parsed_data) => (Ok parsed_data, w')
        | (response_text, Raise e) => (handlers response_text e, w')
        end
    end.

Definition parse_invoice_with_claude : M pyvalue :=
  msgs <- build_messages ;;
  match msgs with
  | None => ret no_signal_error
  | Some m => call_and_parse m
  end.

End Pipeline.

(** Running a function on an uploaded file, from an empty trace. *)
Definition run {A} (m : M A) (f : stream) : res A * world := m (mkWorld f []).

(** ** A reference decoder for [json.loads]

    The replies of the examples are decoded by this function, which
    stands for CPython's [json.loads] on a [str]: the grammar, the
    constants [NaN], [Infinity] and [-Infinity], strict strings, the
    last of two equal keys winning, the 4300-digit limit of [int].
    A [JSONDecodeError] prints as CPython prints it, message then
    line, column and character offset.  The interpreter's recursion
    limit is not represented: the nesting depth is bounded by the
    length of the text only. *)

Inductive scan (A : Type) : Type :=
| Scanned (a : A) (rest : string)
| DecodeError (msg : string) (rest : string)
| OtherError (e : exn).
Arguments Scanned {A} a rest.
Arguments DecodeError {A} msg rest.
Arguments OtherError {A} e.

Definition dquote : ascii := ascii_of_nat 34.
Definition backslash : ascii := ascii_of_nat 92.

Definition json_ws (c : ascii) : bool :=
  let n := code c in ((n =? 32) || (n =? 9) || (n =? 10) || (n =? 13))%N.

Fixpoint skip_ws (s : string) : string :=
  match s with
  | String c r => if json_ws c then skip_ws r else s
  | EmptyString => s
  end.

Definition is_digit (c : ascii) : bool :=
  let n := code c in ((48 <=? n) && (n <=? 57))%N.

Definition hex_value (c : ascii) : option N :=
  let n := code c in
  if ((48 <=? n) && (n <=? 57))%N then Some (n - 48)%N
  else if ((97 <=? n) && (n <=? 102))%N then Some (n - 87)%N
  else if ((65 <=? n) && (n <=? 70))%N then Some (n - 55)%N
  else None.

(** Four hexadecimal digits and a character after them. *)
Definition hex4 (s : string) : option (N * string) :=
  match s with
  | String a (String b (String c (String d (String e r)))) =>
      match hex_value a, hex_value b, hex_value c, hex_value d with
      | Some x, Some y, Some z, Some t =>
          Some (((x * 16 + y) * 16 + z) * 16 + t, String e r)%N
      | _, _, _, _ => None
      end
  | _ => None
  end.

Definition byte_char (n : N) : ascii := ascii_of_N n.

(** The UTF-8 bytes of a code point, last byte first. *)
Definition utf8_rev (u : N) (acc : string) : string :=
  (if u <? 128 then String (byte_char u) acc
   else if u <? 2048 then
     String (byte_char (128 + u mod 64)) (String (byte_char (192 + u / 64)) acc)
   else if u <? 65536 then
     String (byte_char (128 + u mod 64))
       (String (byte_char (128 + (u / 64) mod 64))
          (String (byte_char (224 + u / 4096)) acc))
   else
     String (byte_char (128 + u mod 64))
       (String (byte_char (128 + (u / 64) mod 64))
          (String (byte_char (128 + (u / 4096) mod 64))
             (String (byte_char (240 + u / 262144)) acc))))%N.

Definition escape_char (c : ascii) : option ascii :=
  let n := code c in
  (if n =? 34 then Some c
   else if n =? 92 then Some c
   else if n =? 47 then Some c
   else if n =? 98 then Some (byte_char 8)
   else if n =? 102 then Some (byte_char 12)
   else if n =? 110 then Some (byte_char 10)
   else if n =? 114 then Some (byte_char 13)
   else if n =? 116 then Some (byte_char 9)
   else None)%N.

(** The body of a string, after its opening quote at [begin]. *)
Fixpoint scanstring (fuel : nat) (begin acc s : string) : scan string :=
  match fuel with
  | 0 => DecodeError "Unterminated string starting at" begin
  | S n =>
      match s with
      | EmptyString => DecodeError "Unterminated string starting at" begin
      | String c r =>
          if Ascii.eqb c dquote then Scanned (rev_string acc EmptyString) r
          else if Ascii.eqb c backslash then
            match r with
            | EmptyString => DecodeError "Unterminated string starting at" begin
            | String e r2 =>
                if Ascii.eqb e "u" then
                  match hex4 r2 with
                  | None => DecodeError "Invalid \uXXXX escape" r
                  | Some (u, r3) =>
                      let pair :=
                        if ((55296 <=? u) && (u <=? 56319))%N then
                          match r3 with
                          | String b1 (String b2 r4) =>
                              if Ascii.eqb b1 backslash && Ascii.eqb b2 "u" then
                                match hex4 r4 with
                                | Some (u2, r5) =>
                                    if ((56320 <=? u2) && (u2 <=? 57343))%N then
                                      Some (65536 + (u - 55296) * 1024 + (u2 - 56320), r5)%N
                                    else None
                                | None => None
                                end
                              else None
                          | _ => None
                          end
                        else None in
                      match pair with
                      | Some (v, r5) => scanstring n begin (utf8_rev v acc) r5
                      | None => scanstring n begin (utf8_rev u acc) r3
                      end
                  end
                else
                  match escape_char e with
                  | Some ch => scanstring n begin (String ch acc) r2
                  | None => DecodeError "Invalid \escape" s
                  end
            end
          else if (code c <? 32)%N then DecodeError "Invalid control character at" s
          else scanstring n begin (String c acc) r
      end
  end.

Fixpoint take_digits (s acc : string) : string * string :=
  match s with
  | String c r => if is_digit c then take_digits r (String c acc) else (rev_string acc EmptyString, s)
  | EmptyString => (rev_string acc EmptyString, s)
  end.

Fixpoint digits_value (s : string) (acc : Z) : Z :=
  match s with
  | String c r => digits_value r (10 * acc + Z.of_N (code c - 48))%Z
  | EmptyString => acc
  end.

(** The integer part of a number: an optional minus sign, then 0 or
    a digit from 1 to 9 and any digits; the sign, the digits, the rest. *)
Definition match_integer (s : string) : option (bool * string * string) :=
  let '(neg, s1) :=
    match s with
    | String c r => if Ascii.eqb c "-" then (true, r) else (false, s)
    | EmptyString => (false, s)
    end in
  match s1 with
  | String c r =>
      if Ascii.eqb c "0" then Some (neg, "0", r)
      else if is_digit c then
        let '(ds, r') := take_digits s1 EmptyString in Some (neg, ds, r')
      else None
  | EmptyString => None
  end.

(** The fraction: a point and at least one digit, or nothing. *)
Definition match_frac (s : string) : string * string :=
  match s with
  | String c (String d r) =>
      if Ascii.eqb c "." && is_digit d then
        let '(ds, r') := take_digits (String d r) EmptyString in ("." ++ ds, r')
      else (EmptyString, s)
  | _ => (EmptyString, s)
  end.

(** The exponent: e or E, an optional sign, at least one digit, or
    nothing. *)
Definition match_exp (s : string) : string * string :=
  match s with
  | String c r =>
      if Ascii.eqb c "e" || Ascii.eqb c "E" then
        let '(sign, r1) :=
          match r with
          | String g r' =>
              if Ascii.eqb g "-" || Ascii.eqb g "+" then (String g EmptyString, r') else (EmptyString, r)
          | EmptyString => (EmptyString, r)
          end in
        match r1 with
        | String d _ =>
            if is_digit d then
              let '(ds, r2) := take_digits r1 EmptyString in (String c sign ++ ds, r2)
            else (EmptyString, s)
        | EmptyString => (EmptyString, s)
        end
      else (EmptyString, s)
  | EmptyString => (EmptyString, s)
  end.

Definition dec (n : nat) : string := NilEmpty.string_of_uint (Nat.to_uint n).

Definition int_max_str_digits : nat := 4300.

Definition scan_number (s : string) : option (scan pyvalue) :=
  match match_integer s with
  | None => None
  | Some (neg, ds, r) =>
      let '(frac, r1) := match_frac r in
      let '(exp, r2) := match_exp r1 in
      if truthy frac || truthy exp then
        Some (Scanned (PyFloat ((if neg then "-" else EmptyString) ++ ds ++ frac ++ exp)) r2)
      else if (int_max_str_digits <? String.length ds)%nat then
        Some (OtherError (mkExn (OtherException "ValueError")
          ("Exceeds the limit (4300 digits) for integer string conversion: value has "
           ++ dec (String.length ds)
           ++ " digits; use sys.set_int_max_str_digits() to increase the limit")))
      else
        let v := digits_value ds 0 in
        Some (Scanned (PyInt (if neg then (- v)%Z else v)) r2)
  end.

Definition scan_bind {A B} (r : scan A) (k : A -> string -> scan B) : scan B :=
  match r with
  | Scanned a rest => k a rest
  | DecodeError msg rest => DecodeError msg rest
  | OtherError e => OtherError e
  end.

(** The elements of an array from the first one on, [values] being
    those read so far, last one first. *)
Fixpoint array_loop (scan_value : string -> scan pyvalue) (fuel : nat)
    (values : list pyvalue) (s : string) : scan (list pyvalue) :=
  match fuel with
  | 0 => DecodeError "Expecting value" s
  | S n =>
      scan_bind (scan_value s) (fun value rest =>
        match skip_ws rest with
        | String c r =>
            if Ascii.eqb c "]" then Scanned (List.rev (value :: values)) r
            else if Ascii.eqb c "," then array_loop scan_value n (value :: values) (skip_ws r)
            else DecodeError "Expecting ',' delimiter" (String c r)
        | EmptyString => DecodeError "Expecting ',' delimiter" EmptyString
        end)
  end.

Definition scan_array (scan_value : string -> scan pyvalue) (s : string)
  : scan pyvalue :=
  match skip_ws s with
  | String c r =>
      if Ascii.eqb c "]" then Scanned (PyList []) r
      else scan_bind (array_loop scan_value (String.length s) [] (String c r))
             (fun values rest => Scanned (PyList values) rest)
  | EmptyString =>
      scan_bind (array_loop scan_value (String.length s) [] EmptyString)
        (fun values rest => Scanned (PyList values) rest)
  end.

(** The members of an object from the opening quote of a key on. *)
Fixpoint object_loop (scan_value : string -> scan pyvalue) (fuel : nat)
    (pairs : list (string * pyvalue)) (s : string) : scan (list (string * pyvalue)) :=
  match fuel with
  | 0 => DecodeError "Expecting property name enclosed in double quotes" s
  | S n =>
      match s with
      | String c0 after_quote =>
          if Ascii.eqb c0 dquote then
            scan_bind (scanstring (String.length after_quote) s EmptyString after_quote)
              (fun key rest =>
                 match skip_ws rest with
                 | String c r =>
                     if Ascii.eqb c ":" then
                       scan_bind (scan_value (skip_ws r)) (fun value rest' =>
                         let pairs' := dict_set key value pairs in
                         match skip_ws rest' with
                         | String d r' =>
                             if Ascii.eqb d "}" then Scanned pairs' r'
                             else if Ascii.eqb d "," then
                               object_loop scan_value n pairs' (skip_ws r')
                             else DecodeError "Expecting ',' delimiter" (String d r')
                         | EmptyString => DecodeError "Expecting ',' delimiter" EmptyString
                         end)
                     else DecodeError "Expecting ':' delimiter" (String c r)
                 | EmptyString => DecodeError "Expecting ':' delimiter" EmptyString
                 end)
          else DecodeError "Expecting property name enclosed in double quotes" s
      | EmptyString => DecodeError "Expecting property name enclosed in double quotes" s
      end
  end.

Definition scan_object (scan_value : string -> scan pyvalue) (s : string)
  : scan pyvalue :=
  match skip_ws s with
  | String c r =>
      if Ascii.eqb c "}" then Scanned (PyDict []) r
      else scan_bind (object_loop scan_value (String.length s) [] (String c r))
             (fun pairs rest => Scanned (PyDict pairs) rest)
  | EmptyString =>
      scan_bind (object_loop scan_value (String.length s) [] EmptyString)
        (fun pairs rest => Scanned (PyDict pairs) rest)
  end.

Definition recursion_error : exn :=
  mkExn (OtherException "RecursionError") "maximum recursion depth exceeded".

(** One value at the head of [s]; [depth] bounds the nesting. *)
Fixpoint scan_once (depth : nat) (s : string) : scan pyvalue :=
  match depth with
  | 0 => OtherError recursion_error
  | S n =>
      match s with
      | EmptyString => DecodeError "Expecting value" s
      | String c r =>
          if Ascii.eqb c dquote then
            scan_bind (scanstring (String.length r) s EmptyString r)
              (fun str rest => Scanned (PyStr str) rest)
          else if Ascii.eqb c "{" then scan_object (scan_once n) r
          else if Ascii.eqb c "[" then scan_array (scan_once n) r
          else if startswith "null" s then Scanned PyNone (drop 4 s)
          else if startswith "true" s then Scanned (PyBool true) (drop 4 s)
          else if startswith "false" s then Scanned (PyBool false) (drop 5 s)
          else
            match scan_number s with
            | Some result => result
            | None =>
                if startswith "NaN" s then Scanned (PyFloat "NaN") (drop 3 s)
                else if startswith "Infinity" s then Scanned (PyFloat "Infinity") (drop 8 s)
                else if startswith "-Infinity" s then Scanned (PyFloat "-Infinity") (drop 9 s)
                else DecodeError "Expecting value" s
            end
      end
  end.

Definition newline (c : ascii) : bool := (code c =? 10)%N.

(** [lineno] and [colno] of a position, from the text before it:
    the line feeds in it, and the characters after the last of them. *)
Fixpoint line_col (before : string) (line : nat) (col : string) : nat * nat :=
  match before with
  | EmptyString => (line, S (py_len col))
  | String c r => if newline c then line_col r (S line) r else line_col r line col
  end.

Fixpoint take (n : nat) (s : string) : string :=
  match n, s with
  | S n', String c r => String c (take n' r)
  | _, _ => EmptyString
  end.

(** [str(JSONDecodeError(msg, doc, pos))], [pos] being where [rest] starts. *)
Definition decode_error_text (msg doc rest : string) : string :=
  let before := take (String.length doc - String.length rest) doc in
  let '(line, col) := line_col before 1 before in
  msg ++ ": line " ++ dec line ++ " column " ++ dec col
      ++ " (char " ++ dec (py_len before) ++ ")".

Definition utf8_bom : string :=
  String (byte_char 239) (String (byte_char 187) (String (byte_char 191) EmptyString)).

Definition json_loads_ref (s : string) : res pyvalue :=
  if startswith utf8_bom s then
    Raise (mkExn JSONDecodeError
             (decode_error_text "Unexpected UTF-8 BOM (decode using utf-8-sig)" s s))
  else
    match scan_once (S (String.length s)) (skip_ws s) with
    | Scanned v rest =>
        match skip_ws rest with
        | EmptyString => Ok v
        | rest' => Raise (mkExn JSONDecodeError (decode_error_text "Extra data" s rest'))
        end
    | DecodeError msg rest => Raise (mkExn JSONDecodeError (decode_error_text msg s rest))
    | OtherError e => Raise e
    end.


(** ** Vocabulary of the specification *)

(** The calls that only [pdf_to_base64_image] makes. *)
Definition renderer_event (ev : event) : bool :=
  match ev with
  | Call_read | Call_seek _ | Call_convert_from_bytes _ | Call_save _ => true
  | _ => false
  end.

Definition model_event (ev : event) : bool :=
  match ev with
  | Call_messages_create _ => true
  | _ => false
  end.

(** The request that line 175 sends for the messages [msgs]. *)
Definition request_of (msgs : list message) : request :=
  mkRequest "claude-sonnet-4-20250514" 2000 msgs.

(** The fields of an InvoiceRecord (spec, section 6). *)
Definition invoice_fields : list string :=
  [ "invoice_number"; "invoice_date"; "due_date"; "vendor"; "buyer"; "line_items";
    "subtotal"; "tax_details"; "total_amount"; "currency"; "payment_terms"; "notes" ].

Definition mem (k : string) (l : list string) : bool := existsb (String.eqb k) l.

(** A possibly partial InvoiceRecord: a record with fields of the
    schema only, each of them optional. *)
Definition is_invoice_record (v : pyvalue) : bool :=
  match v with
  | PyDict d => forallb (fun kv => mem (fst kv) invoice_fields) d
  | _ => false
  end.

(** The error variant: a message under [error], and at most the raw
    reply under [raw_response] besides. *)
Definition is_error_value (v : pyvalue) : bool :=
  match v with
  | PyDict d =>
      match dict_get "error" d with
      | Some (PyStr _) => forallb (fun kv => mem (fst kv) ["error"; "raw_response"]) d
      | _ => false
      end
  | _ => false
  end.

(** The argument that line 191 hands to [json.loads] for a reply. *)
Definition decoder_input (reply : string) : res string :=
  t <~ strip_fences reply ;; Ok (strip t).


Definition is_ok {A} (r : res A) : bool :=
  match r with Ok _ => true | Raise _ => false end.

Definition page_text (page : res string) : string :=
  match page with Ok t => t | Raise _ => EmptyString end.

(** What the text extractor returns, in the words of its contract:
    the non-empty page texts, a line feed after each, concatenated
    and trimmed; the empty string when the reader or a page fails. *)
Definition extracted_text_of (reader : res (list (res string))) : string :=
  match reader with
  | Raise _ => EmptyString
  | Ok pages =>
      if forallb is_ok pages then
        strip (String.concat EmptyString
                 (map (fun t => t ++ nl) (filter truthy (map page_text pages))))
      else EmptyString
  end.

(** What the image renderer returns for the bytes it has read: the
    first page as base64 of its PNG, [None] when the conversion or
    the encoding fails, or when there is no page. *)
Definition rendered_page (E : env) (pdf_bytes : list Byte.byte) : option string :=
  match convert_from_bytes E pdf_bytes with
  | Ok (img :: _) =>
      match save_png E img with
      | Ok png => Some (standard_b64encode png)
      | Raise _ => None
      end
  | Ok [] => None
  | Raise _ => None
  end.

(** The plain reading of the contract: the page texts concatenated. *)
Definition concatenated_page_texts (pages : list (res string)) : string :=
  strip (String.concat EmptyString (map page_text pages)).

(** ** Sample documents and collaborators *)

Definition sample_file : stream := mkStream [] 0.

Definition digital_text : string :=
  "Invoice #A1 from Acme Traders to Bolt Retail, dated 2024-01-15. Subtotal: 100.00 CGST 9.00 SGST 9.00 Total: 118.00 INR".

Definition failure (name msg : string) : exn := mkExn (OtherException name) msg.

(** Collaborators with fixed answers; [json.loads] is the reference
    decoder, the PNG encoder gives the bitmap back. *)
Definition sample_env (reader : res (list (res string))) (images : res (list image))
    (response : res (list content_block)) : env :=
  mkEnv (fun f => (reader, List.length (data f)))
        (fun _ => images)
        (fun img => Ok img)
        (fun _ => response)
        json_loads_ref.

(** A one-page digital invoice and a model that answers [reply]. *)
Definition digital_env (reply : string) : env :=
  sample_env (Ok [Ok digital_text])
             (Raise (failure "PDFPageCountError" "Unable to get page count."))
             (Ok [TextBlock reply]).

(** A document with neither a text layer nor a page to render. *)
Definition unreadable_env : env :=
  sample_env (Raise (failure "PdfReadError" "EOF marker not found"))
             (Raise (failure "PDFPageCountError" "Unable to get page count."))
             (Ok [TextBlock "{}"]).

(** A scanned page, and a model call that fails with [e]. *)
Definition scanned_env (e : exn) : env :=
  sample_env (Ok [Ok EmptyString]) (Ok [[Byte.x89; Byte.x50; Byte.x4e]]) (Raise e).

Definition two_page_env : env :=
  sample_env (Ok [Ok "a"; Ok "b"]) (Ok []) (Ok []).

Definition minimal_reply : string := "{" ++ q "invoice_number" ++ ": " ++ q "A1" ++ "}".

Definition fenced_garbage : string := "```json" ++ nl ++ "not json" ++ nl ++ "```".

(** The text of [s] before the leftmost [sep], all of [s] when [sep]
    does not occur: element 0 of [s.split(sep)]. *)
Definition before (sep s : string) : string :=
  match partition sep s with
  | Some (a, _) => a
  | None => s
  end.

(** A scanned page that renders, and a model that answers [response]. *)
Definition rendering_env (response : res (list content_block)) : env :=
  sample_env (Ok [Ok EmptyString]) (Ok [[Byte.x89; Byte.x50; Byte.x4e]]) response.

(** A digital invoice and a model that answers [response]. *)
Definition answering_env (response : res (list content_block)) : env :=
  sample_env (Ok [Ok digital_text]) (Ok []) response.

(** A reader that leaves the cursor after the first two of five bytes
    of a scanned file. *)
Definition seeking_env : env :=
  mkEnv (fun f => (Ok [Ok EmptyString], 2))
        (fun _ => Ok [])
        (fun img => Ok img)
        (fun _ => Ok [TextBlock "{}"])
        json_loads_ref.

Definition five_bytes : stream :=
  mkStream [Byte.x25; Byte.x50; Byte.x44; Byte.x46; Byte.x2d] 0.

Definition convert_event (ev : event) : bool :=
  match ev with
  | Call_convert_from_bytes _ => true
  | _ => false
  end.

(** ** app.py: what is made of the result

    Lines 53-176 of the page script, the block that runs when a file
    has been uploaded.  A call to Streamlit is an entry of the output,
    in program order; the columns that the [with] blocks select are
    layout only and leave no entry, and Streamlit is taken to accept
    what it is given.  What Python and pandas do to
    values of any shape is a collaborator, as for [env]. *)

Record ui_env : Type := mkUi {
  (** [str(v)] of a number, a list or a dict *)
  str_of_other : pyvalue -> string;
  (** [format(v, ",.2f")] of an int, a bool or a float *)
  format_2f : pyvalue -> res string;
  (** whether the float read from a numeral is zero *)
  float_is_zero : string -> bool;
  (** whether [pd.DataFrame(v)] accepts [v] *)
  DataFrame : pyvalue -> res unit;
  (** [json.dumps(v, indent=2)] *)
  json_dumps : pyvalue -> res string
}.

Inductive st_call : Type :=
| St_spinner (text : string)
| St_error (body : string)
| St_expander (label : string)
| St_code (body : pyvalue)
| St_success (body : string)
| St_columns (n : nat)
| St_subheader (body : string)
| St_markdown (body : string)
| St_divider
| St_metric (label value : string)
| St_dataframe (rows : pyvalue) (columns : list (string * string))
| St_info (body : string)
| St_json (body : pyvalue)
| St_download_button (label data file_name mime : string).

Definition type_name (v : pyvalue) : string :=
  match v with
  | PyNone => "NoneType"
  | PyBool _ => "bool"
  | PyInt _ => "int"
  | PyFloat _ => "float"
  | PyStr _ => "str"
  | PyList _ => "list"
  | PyDict _ => "dict"
  end.

Definition type_error (msg : string) : exn := mkExn (OtherException "TypeError") msg.

(** [v.get(k, default)] *)
Definition py_get (v : pyvalue) (k : string) (default : pyvalue) : res pyvalue :=
  match v with
  | PyDict d => Ok (match dict_get k d with Some x => x | None => default end)
  | _ => Raise (mkExn AttributeError
                  ("'" ++ type_name v ++ "' object has no attribute 'get'"))
  end.

(** [x == k] for a text [k] *)
Definition py_eq_str (x : pyvalue) (k : string) : bool :=
  match x with
  | PyStr s => String.eqb s k
  | _ => false
  end.

(** [k in v] for a text [k]: a key of a dict, an element of a list,
    a part of a text; nothing else is iterable. *)
Definition py_in (k : string) (v : pyvalue) : res bool :=
  match v with
  | PyDict d => Ok (match dict_get k d with Some _ => true | None => false end)
  | PyList l => Ok (existsb (fun x => py_eq_str x k) l)
  | PyStr s => Ok (contains k s)
  | _ => Raise (type_error ("argument of type '" ++ type_name v ++ "' is not iterable"))
  end.

(** [v[k]] for a text [k] *)
Definition py_getitem (v : pyvalue) (k : string) : res pyvalue :=
  match v with
  | PyDict d =>
      match dict_get k d with
      | Some x => Ok x
      | None => Raise (mkExn (OtherException "KeyError") ("'" ++ k ++ "'"))
      end
  | PyList _ => Raise (type_error "list indices must be integers or slices, not str")
  | PyStr _ => Raise (type_error "string indices must be integers, not 'str'")
  | _ => Raise (type_error ("'" ++ type_name v ++ "' object is not subscriptable"))
  end.

Section Page.

Variable U : ui_env.

(** [str(v)], as an f-string shows [v] *)
Definition py_str (v : pyvalue) : string :=
  match v with
  | PyStr s => s
  | PyNone => "None"
  | PyBool true => "True"
  | PyBool false => "False"
  | _ => str_of_other U v
  end.

(** Truth value *)
Definition py_truthy (v : pyvalue) : bool :=
  match v with
  | PyNone => false
  | PyBool b => b
  | PyInt z => negb (z =? 0)%Z
  | PyFloat numeral => negb (float_is_zero U numeral)
  | PyStr s => truthy s
  | PyList l => match l with [] => false | _ => true end
  | PyDict d => match d with [] => false | _ => true end
  end.

(** [f"{amount:,.2f}"] *)
Definition format_amount (amount : pyvalue) : res string :=
  match amount with
  | PyBool _ | PyInt _ | PyFloat _ => format_2f U amount
  | PyStr _ =>
      Raise (mkExn (OtherException "ValueError")
               "Unknown format code 'f' for object of type 'str'")
  | _ => Raise (type_error ("unsupported format string passed to "
                            ++ type_name amount ++ ".__format__"))
  end.

(** parser.py, lines 200-206; the page always passes [currency]. *)
Definition format_currency (amount currency : pyvalue) : res string :=
  match amount with
  | PyNone => Ok "N/A"
  | _ =>
      if py_eq_str currency "INR" then
        s <~ format_amount amount ;; Ok ("â‚¹" ++ s)
      else
        s <~ format_amount amount ;; Ok (py_str currency ++ " " ++ s)
  end.

(** Output so far, and how the block ends. *)
Definition UI (A : Type) : Type := list st_call -> res A * list st_call.

Definition ui_ret {A} (a : A) : UI A := fun out => (Ok a, out).

Definition ui_bind {A B} (m : UI A) (k : A -> UI B) : UI B :=
  fun out => match m out with
             | (Ok a, out') => k a out'
             | (Raise e, out') => (Raise e, out')
             end.

Definition ui_lift {A} (r : res A) : UI A := fun out => (r, out).

Definition st (c : st_call) : UI unit := fun out => (Ok tt, (out ++ [c])%list).

Declare Scope ui_scope.
Notation "x <- m ;; k" := (ui_bind m (fun x => k))
  (at level 61, m at next level, right associativity) : ui_scope.
Notation "m ;; k" := (ui_bind m (fun _ => k))
  (at level 61, right associativity) : ui_scope.
Open Scope ui_scope.

(** [st.markdown(f"**label:** {v.get(key, 'N/A')}")] *)
Definition markdown_member (label : string) (v : pyvalue) (key : string) : UI unit :=
  x <- ui_lift (py_get v key (PyStr "N/A")) ;;
  st (St_markdown ("**" ++ label ++ ":** " ++ py_str x)).

(** Lines 83-87 for the vendor, 92-96 for the buyer. *)
Definition party_details (title key : string) (result : pyvalue) : UI unit :=
  st (St_subheader title) ;;
  party <- ui_lift (py_get result key (PyDict [])) ;;
  markdown_member "Name" party "name" ;;
  markdown_member "Address" party "address" ;;
  markdown_member "GSTIN" party "gstin".

(** [st.metric(label=label, value=format_currency(v.get(key), currency))] *)
Definition metric_member (label : string) (v : pyvalue) (key : string)
    (currency : pyvalue) : UI unit :=
  amount <- ui_lift (py_get v key PyNone) ;;
  value <- ui_lift (format_currency amount currency) ;;
  st (St_metric label value).

(** [st.markdown(f"**label:** {format_currency(v.get(key), currency)}")] *)
Definition markdown_amount (label : string) (v : pyvalue) (key : string)
    (currency : pyvalue) : UI unit :=
  amount <- ui_lift (py_get v key PyNone) ;;
  value <- ui_lift (format_currency amount currency) ;;
  st (St_markdown ("**" ++ label ++ ":** " ++ value)).

Definition column_mapping : list (string * string) :=
  [ ("description", "Description"); ("hsn_code", "HSN Code"); ("quantity", "Qty");
    ("unit_price", "Unit Price"); ("amount", "Amount") ].

(** Lines 71-96, the first column. *)
Definition basic_information (result : pyvalue) : UI unit :=
  st (St_subheader "📋 Basic Information") ;;
  markdown_member "Invoice Number" result "invoice_number" ;;
  markdown_member "Invoice Date" result "invoice_date" ;;
  markdown_member "Due Date" result "due_date" ;;
  markdown_member "Currency" result "currency" ;;
  st St_divider ;;
  party_details "🏢 Vendor Details" "vendor" result ;;
  st St_divider ;;
  party_details "👤 Buyer Details" "buyer" result.

(** Lines 98-133, the second column. *)
Definition financial_summary (result : pyvalue) : UI unit :=
  st (St_subheader "💰 Financial Summary") ;;
  currency <- ui_lift (py_get result "currency" (PyStr "INR")) ;;
  st (St_columns 2) ;;
  metric_member "Subtotal" result "subtotal" currency ;;
  tax_details <- ui_lift (py_get result "tax_details" (PyDict [])) ;;
  metric_member "Total Tax" tax_details "total_tax" currency ;;
  metric_member "Total Amount" result "total_amount" currency ;;
  st St_divider ;;
  st (St_subheader "📊 Tax Breakdown") ;;
  tax_details <- ui_lift (py_get result "tax_details" (PyDict [])) ;;
  st (St_columns 3) ;;
  markdown_amount "CGST" tax_details "cgst" currency ;;
  markdown_amount "SGST" tax_details "sgst" currency ;;
  markdown_amount "IGST" tax_details "igst" currency.

(** Lines 135-155. *)
Definition line_items_table (result : pyvalue) : UI unit :=
  st St_divider ;;
  st (St_subheader "📦 Line Items") ;;
  line_items <- ui_lift (py_get result "line_items" (PyList [])) ;;
  if py_truthy line_items then
    ui_lift (DataFrame U line_items) ;;
    st (St_dataframe line_items column_mapping)
  else st (St_info "No line items extracted").

(** Lines 157-164. *)
Definition additional_information (result : pyvalue) : UI unit :=
  payment_terms <- ui_lift (py_get result "payment_terms" PyNone) ;;
  shown <- (if py_truthy payment_terms then ui_ret true
            else notes <- ui_lift (py_get result "notes" PyNone) ;;
                 ui_ret (py_truthy notes)) ;;
  if (shown : bool) then
    st St_divider ;;
    st (St_subheader "📝 Additional Information") ;;
    payment_terms <- ui_lift (py_get result "payment_terms" PyNone) ;;
    (if py_truthy payment_terms then
       payment_terms <- ui_lift (py_get result "payment_terms" PyNone) ;;
       st (St_markdown ("**Payment Terms:** " ++ py_str payment_terms))
     else ui_ret tt) ;;
    notes <- ui_lift (py_get result "notes" PyNone) ;;
    (if py_truthy notes then
       notes <- ui_lift (py_get result "notes" PyNone) ;;
       st (St_markdown ("**Notes:** " ++ py_str notes))
     else ui_ret tt)
  else ui_ret tt.

(** Lines 166-176. *)
Definition raw_json_and_download (result : pyvalue) : UI unit :=
  st St_divider ;;
  st (St_expander "🔧 View Raw JSON Data") ;;
  st (St_json result) ;;
  data <- ui_lift (U.(json_dumps) result) ;;
  invoice_number <- ui_lift (py_get result "invoice_number" (PyStr "parsed")) ;;
  st (St_download_button "📥 Download as JSON" data
        ("invoice_" ++ py_str invoice_number ++ ".json") "application/json").

(** Lines 65-176, the branch of a parsed invoice. *)
Definition show_invoice (result : pyvalue) : UI unit :=
  st (St_success "✅ Invoice parsed successfully!") ;;
  st (St_columns 2) ;;
  basic_information result ;;
  financial_summary result ;;
  line_items_table result ;;
  additional_information result ;;
  raw_json_and_download result.

(** Lines 60-63, the branch of an error. *)
Definition show_failure (result : pyvalue) : UI unit :=
  message <- ui_lift (py_getitem result "error") ;;
  st (St_error ("❌ Error: " ++ py_str message)) ;;
  has_raw <- ui_lift (py_in "raw_response" result) ;;
  if (has_raw : bool) then
    st (St_expander "See raw API response") ;;
    raw <- ui_lift (py_getitem result "raw_response") ;;
    st (St_code raw)
  else ui_ret tt.

(** Lines 59-176. *)
Definition show_result (result : pyvalue) : UI unit :=
  failed <- ui_lift (py_in "error" result) ;;
  if (failed : bool) then show_failure result else show_invoice result.

(** Lines 53-176 for an uploaded file: the result of the parser, shown. *)
Definition on_upload (E : env) (uploaded_file : stream) : UI unit :=
  st (St_spinner "🔍 Analyzing invoice... This may take a few seconds.") ;;
  result <- ui_lift (fst (run (parse_invoice_with_claude E) uploaded_file)) ;;
  show_result result.

Close Scope ui_scope.

End Page.

(** ** Vocabulary for the page *)

(** A member of a record is absent or is itself a record. *)
Definition object_or_absent (d : list (string * pyvalue)) (k : string) : bool :=
  match dict_get k d with
  | None | Some (PyDict _) => true
  | Some _ => false
  end.

(** The member [k] of a record, [default] when it is absent. *)
Definition member (d : list (string * pyvalue)) (k : string) (default : pyvalue) : pyvalue :=
  match dict_get k d with
  | Some x => x
  | None => default
  end.

Definition members_of (v : pyvalue) : list (string * pyvalue) :=
  match v with
  | PyDict d => d
  | _ => []
  end.

(** The record [d] has what the page needs to show it: its vendor,
    buyer and tax details are records or absent, its six amounts can
    be formatted, its line items are empty or make a table, and it
    can be written as JSON. *)
Definition renders (U : ui_env) (d : list (string * pyvalue)) : bool :=
  let currency := member d "currency" (PyStr "INR") in
  let tax := members_of (member d "tax_details" (PyDict [])) in
  let shown k from := is_ok (format_currency U (member from k PyNone) currency) in
  object_or_absent d "vendor"
  && object_or_absent d "buyer"
  && shown "subtotal" d
  && object_or_absent d "tax_details"
  && shown "total_tax" tax
  && shown "total_amount" d
  && shown "cgst" tax
  && shown "sgst" tax
  && shown "igst" tax
  && (negb (py_truthy U (member d "line_items" (PyList [])))
      || is_ok (DataFrame U (member d "line_items" (PyList []))))
  && is_ok (json_dumps U (PyDict d)).

(** A page that formats numbers as zero, shows other values as
    dots, and accepts every table. *)
Definition sample_ui : ui_env :=
  mkUi (fun _ => "...") (fun _ => Ok "0.00") (fun _ => false) (fun _ => Ok tt)
       (fun _ => Ok "{}").

Definition is_record (v : pyvalue) : bool :=
  match v with
  | PyDict _ => true
  | _ => false
  end.

(** What the branch of an error puts out for the members of a result. *)
Definition failure_output (U : ui_env) (message : pyvalue) (raw : option pyvalue)
  : list st_call :=
  St_error ("❌ Error: " ++ py_str U message)
  :: match raw with
     | Some r => [St_expander "See raw API response"; St_code r]
     | None => []
     end.

Definition a_record : list (string * pyvalue) :=
  [ ("invoice_number", PyStr "A1"); ("total_amount", PyFloat "118.0");
    ("tax_details", PyDict [("cgst", PyFloat "9.0"); ("sgst", PyFloat "9.0")]) ].

(** ** Proof automation *)

Ltac unfold_prefix := cbn [startswith append andb last_char] in *.

Ltac by_chars :=
  unfold_prefix;
  repeat match goal with
         | |- context [Ascii.eqb ?a ?c] =>
             is_var c; destruct (Ascii.eqb_spec a c); subst; unfold_prefix
         | H : context [Ascii.eqb ?a ?c] |- _ =>
             is_var c; destruct (Ascii.eqb_spec a c); subst; unfold_prefix
         end;
  try discriminate; try congruence; auto.

(** ** Strings: prefixes, partition, split *)



Lemma startswith_shorter (a b t : string) :
  startswith (a ++ b) t = true -> startswith a t = true.
Proof.
  revert t. induction a as [|c a IH]; intros t H; simpl in *.
  - reflexivity.
  - destruct t as [|d t]; [discriminate|].
    apply andb_true_iff in H. destruct H as [Hc Ht].
    rewrite Hc. simpl. now apply IH.
Qed.

Lemma partition_eq (sep s : string) :
  partition sep s =
  if startswith sep s then Some (EmptyString, drop (String.length sep) s)
  else match s with
       | EmptyString => None
       | String c r =>
           match partition sep r with
           | Some (a, b) => Some (String c a, b)
           | None => None
           end
       end.
Proof. destruct s; reflexivity. Qed.



(** A text that holds [a ++ b] holds [a]. *)
Lemma contains_shorter (a b s : string) :
  contains a s = false -> contains (a ++ b) s = false.
Proof.
  unfold contains. induction s as [|c s IH].
  - rewrite (partition_eq a), (partition_eq (a ++ b)).
    destruct (startswith a EmptyString) eqn:Ha; [discriminate|].
    destruct (startswith (a ++ b) EmptyString) eqn:Hab; [|reflexivity].
    apply startswith_shorter in Hab. congruence.
  - rewrite (partition_eq a), (partition_eq (a ++ b)).
    destruct (startswith a (String c s)) eqn:Ha; [discriminate|].
    destruct (startswith (a ++ b) (String c s)) eqn:Hab.
    + apply startswith_shorter in Hab. congruence.
    + destruct (partition a s) as [[x y]|]; [discriminate|].
      intros _. specialize (IH eq_refl).
      destruct (partition (a ++ b) s) as [[x y]|]; [discriminate|reflexivity].
Qed.

Lemma split_fuel_absent (n : nat) (sep s : string) :
  partition sep s = None -> split_fuel n sep s = [s].
Proof. intros H. destruct n; simpl; now rewrite H. Qed.


Lemma split_fuel_nonempty (n : nat) (sep s : string) :
  exists a rest, split_fuel n sep s = a :: rest.
Proof.
  destruct n; simpl; destruct (partition sep s) as [[a b]|]; eauto.
Qed.

(** After [sep in s], [s.split(sep)] has an element of index 1. *)
Lemma split_present (sep s : string) :
  contains sep s = true ->
  exists a b rest, split sep s = a :: b :: rest.
Proof.
  unfold contains, split. intros H.
  destruct (partition sep s) as [[a b]|] eqn:Hp; [|discriminate].
  destruct (String.length s) as [|n]; simpl; rewrite Hp.
  - now exists a, b, [].
  - destruct (split_fuel_nonempty n sep b) as [x [rest Hx]].
    rewrite Hx. now exists a, x, rest.
Qed.

Lemma startswith_length (p t : string) :
  startswith p t = true ->
  String.length p + String.length (drop (String.length p) t) = String.length t.
Proof.
  revert t. induction p as [|d p IH]; intros t H; simpl in *.
  - reflexivity.
  - destruct t as [|e t]; [discriminate|].
    apply andb_true_iff in H. destruct H as [_ H].
    simpl. now rewrite (IH _ H).
Qed.

Lemma partition_length (sep s a b : string) :
  partition sep s = Some (a, b) ->
  String.length a + String.length sep + String.length b = String.length s.
Proof.
  revert a b. induction s as [|c s IH]; intros a b; rewrite partition_eq.
  - destruct (startswith sep EmptyString) eqn:Hs; [|discriminate].
    intros [= <- <-]. apply (startswith_length _ _ Hs).
  - destruct (startswith sep (String c s)) eqn:Hs.
    + intros [= <- <-]. apply (startswith_length _ _ Hs).
    + destruct (partition sep s) as [[x y]|]; [|discriminate].
      intros [= <- <-]. specialize (IH x y eq_refl). simpl. lia.
Qed.

(** The fuel of [split] is enough: more of it changes nothing. *)
Lemma split_fuel_enough (sep : string) :
  sep <> EmptyString ->
  forall n m s, (String.length s <= n)%nat -> (String.length s <= m)%nat ->
  split_fuel n sep s = split_fuel m sep s.
Proof.
  intros Hsep.
  assert (0 < String.length sep)%nat as Hpos by (destruct sep; [congruence|simpl; lia]).
  induction n as [|n IH]; intros m s Hn Hm.
  - destruct s; [|simpl in Hn; lia].
    destruct sep; [congruence|]. now destruct m.
  - destruct (partition sep s) as [[a b]|] eqn:Hp.
    + pose proof (partition_length _ _ _ _ Hp) as Hl.
      destruct m as [|m]; [lia|].
      simpl. rewrite Hp. f_equal. apply IH; lia.
    + now rewrite !split_fuel_absent.
Qed.



(** ** Code fences *)

Lemma contains_tail (sep : string) (c : ascii) (s : string) :
  contains sep (String c s) = false ->
  startswith sep (String c s) = false /\ contains sep s = false.
Proof.
  unfold contains. rewrite partition_eq.
  destruct (startswith sep (String c s)); [discriminate|].
  destruct (partition sep s) as [[a b]|]; [discriminate|auto].
Qed.

Lemma last_char_tail (c : ascii) (s : string) :
  s <> EmptyString -> last_char (String c s) = last_char s.
Proof. destruct s; [congruence|reflexivity]. Qed.








Lemma strip_fences_plain (s : string) :
  contains "```" s = false -> strip_fences s = Ok s.
Proof.
  intros H. unfold strip_fences.
  assert (contains "```json" s = false) as ->
    by exact (contains_shorter "```" "json" s H).
  now rewrite H.
Qed.



(** Lines 185-188 raise nothing. *)
Lemma strip_fences_total (reply : string) : exists t, strip_fences reply = Ok t.
Proof.
  unfold strip_fences.
  destruct (contains "```json" reply) eqn:Htag.
  - destruct (split_present _ _ Htag) as [a [b [rest ->]]]. cbn.
    unfold split. destruct (split_fuel_nonempty (String.length b) "```" b) as [x [r ->]].
    cbn. eauto.
  - destruct (contains "```" reply) eqn:Hf; [|eauto].
    destruct (split_present _ _ Hf) as [a [b [rest ->]]]. cbn.
    unfold split. destruct (split_fuel_nonempty (String.length b) "```" b) as [x [r ->]].
    cbn. eauto.
Qed.

(** ** The text extractor *)

Lemma append_assoc (a b c : string) : (a ++ b) ++ c = a ++ b ++ c.
Proof. induction a as [|x a IH]; simpl; [reflexivity|now rewrite IH]. Qed.

Lemma append_empty (a : string) : a ++ EmptyString = a.
Proof. induction a as [|x a IH]; simpl; [reflexivity|now rewrite IH]. Qed.

Lemma page_loop_all_ok (pages : list (res string)) (text : string) :
  forallb is_ok pages = true ->
  page_loop pages text =
  Ok (text ++ String.concat EmptyString
                (map (fun t => t ++ nl) (filter truthy (map page_text pages)))).
Proof.
  revert text. induction pages as [|page pages IH]; intros text H.
  - cbn. now rewrite append_empty.
  - destruct page as [t|e]; [|discriminate]. simpl in H.
    cbn [page_loop res_bind map page_text filter]. rewrite (IH _ H).
    destruct (truthy t) eqn:Ht.
    + f_equal. cbn [map]. rewrite append_assoc.
      destruct (filter truthy (map page_text pages)) as [|u us]; cbn.
      * now rewrite append_empty.
      * reflexivity.
    + reflexivity.
Qed.

Lemma page_loop_raises (pages : list (res string)) (text : string) :
  forallb is_ok pages = false -> exists e, page_loop pages text = Raise e.
Proof.
  revert text. induction pages as [|page pages IH]; intros text H.
  - discriminate.
  - destruct page as [t|e]; cbn in *; eauto.
Qed.

(** What running the extractor amounts to. *)
Lemma extract_text_from_pdf_run (E : env) (w : world) :
  extract_text_from_pdf E w =
  let w1 := mkWorld (mkStream (data (pdf_file w)) (snd (PdfReader E (pdf_file w))))
                    (trace w ++ [Call_PdfReader]) in
  match (pages <~ fst (PdfReader E (pdf_file w)) ;;
         text <~ page_loop pages EmptyString ;;
         Ok (strip text)) with
  | Ok t => (Ok t, w1)
  | Raise e =>
      (Ok EmptyString, mkWorld (pdf_file w1)
                (trace w1 ++ [Call_print ("Error extracting text: " ++ exn_str e)]))
  end.
Proof.
  unfold extract_text_from_pdf, try_except, bind, call_PdfReader, lift, ret, print, log.
  destruct (PdfReader E (pdf_file w)) as [[pages|e] cursor]; cbn.
  - destruct (page_loop pages EmptyString); reflexivity.
  - reflexivity.
Qed.

Lemma extract_text_from_pdf_value (E : env) (w : world) :
  fst (extract_text_from_pdf E w) = Ok (extracted_text_of (fst (PdfReader E (pdf_file w)))).
Proof.
  rewrite extract_text_from_pdf_run. cbv zeta.
  destruct (fst (PdfReader E (pdf_file w))) as [pages|e]; cbn [res_bind extracted_text_of].
  - destruct (forallb is_ok pages) eqn:Hok.
    + now rewrite (page_loop_all_ok _ _ Hok).
    + destruct (page_loop_raises pages EmptyString Hok) as [e ->]. reflexivity.
  - reflexivity.
Qed.

Lemma extract_text_from_pdf_trace (E : env) (w : world) :
  exists prints,
    trace (snd (extract_text_from_pdf E w)) = (trace w ++ Call_PdfReader :: prints)%list
    /\ data (pdf_file (snd (extract_text_from_pdf E w))) = data (pdf_file w)
    /\ existsb model_event prints = false
    /\ existsb renderer_event prints = false
    /\ (truthy_opt (match fst (extract_text_from_pdf E w) with
                    | Ok t => Some t | Raise _ => None end) = true -> prints = []).
Proof.
  rewrite extract_text_from_pdf_run. cbv zeta.
  destruct (pages <~ fst (PdfReader E (pdf_file w)) ;;
            text <~ page_loop pages EmptyString ;; Ok (strip text)) as [t|e]; cbn.
  - exists []. repeat split.
  - eexists. rewrite <- app_assoc. cbn. repeat split. discriminate.
Qed.

(** ** The image renderer *)

Lemma pdf_to_base64_image_run (E : env) (w : world) :
  exists o evs,
    pdf_to_base64_image E w =
    (Ok o, mkWorld (mkStream (data (pdf_file w)) 0)
                   (trace w ++ Call_read :: Call_seek 0 :: evs))
    /\ existsb model_event evs = false.
Proof.
  unfold pdf_to_base64_image, try_except, bind, file_read, file_seek,
    call_convert_from_bytes, call_save, lift, ret, print, log.
  cbn.
  destruct (convert_from_bytes E (skipn (pos (pdf_file w)) (data (pdf_file w))))
    as [[|img images]|e]; cbn.
  - eexists _, _. rewrite <- !app_assoc. cbn. split; reflexivity.
  - destruct (save_png E img) as [png|e]; cbn;
      eexists _, _; rewrite <- !app_assoc; cbn; split; reflexivity.
  - eexists _, _. rewrite <- !app_assoc. cbn. split; reflexivity.
Qed.

(** Every run of the renderer leaves its calls in the trace. *)
Lemma pdf_to_base64_image_is_traced (E : env) (w : world) :
  existsb renderer_event (trace (snd (pdf_to_base64_image E w))) = true.
Proof.
  destruct (pdf_to_base64_image_run E w) as [o [evs [-> _]]].
  cbn [snd trace]. rewrite existsb_app. cbn. apply orb_true_r.
Qed.

Lemma pdf_to_base64_image_value (E : env) (w : world) :
  fst (pdf_to_base64_image E w) =
  Ok (rendered_page E (skipn (pos (pdf_file w)) (data (pdf_file w)))).
Proof.
  unfold pdf_to_base64_image, rendered_page, try_except, bind, file_read,
    file_seek, call_convert_from_bytes, call_save, lift, ret, print, log.
  cbn.
  destruct (convert_from_bytes E (skipn (pos (pdf_file w)) (data (pdf_file w))))
    as [[|img images]|e]; cbn; try reflexivity.
  destruct (save_png E img); reflexivity.
Qed.

(** C8. After [pdf_to_base64_image] has returned, with an image or
    with [None], the cursor of the uploaded file is at the beginning
    and its bytes are what they were; the function raises nothing:
    it returns the encoded first page, and [None] when the conversion
    or the encoding fails or gives no page. *)
Theorem pdf_to_base64_image_resets_cursor (E : env) (w : world) :
  fst (pdf_to_base64_image E w) =
    Ok (rendered_page E (skipn (pos (pdf_file w)) (data (pdf_file w))))
  /\ pos (pdf_file (snd (pdf_to_base64_image E w))) = 0
  /\ data (pdf_file (snd (pdf_to_base64_image E w))) = data (pdf_file w).
Proof.
  split; [apply pdf_to_base64_image_value|].
  destruct (pdf_to_base64_image_run E w) as [o [evs [H _]]].
  rewrite H. split; reflexivity.
Qed.

(** ** The orchestrator *)

Lemma build_messages_text (E : env) (w w1 : world) (text : string) :
  extract_text_from_pdf E w = (Ok text, w1) ->
  (100 < py_len text)%nat ->
  build_messages E w = (Ok (Some (text_messages text)), w1).
Proof.
  intros He Hlen. unfold build_messages, bind. rewrite He.
  apply Nat.ltb_lt in Hlen. now rewrite Hlen.
Qed.

Lemma build_messages_fallback (E : env) (w w1 : world) (text : string) :
  extract_text_from_pdf E w = (Ok text, w1) ->
  (py_len text <= 100)%nat ->
  build_messages E w =
  (Ok (match rendered_page E (skipn (pos (pdf_file w1)) (data (pdf_file w1))) with
       | Some (String c b) => Some (image_messages (String c b))
       | _ => None
       end),
   snd (pdf_to_base64_image E w1)).
Proof.
  intros He Hlen. unfold build_messages, bind. rewrite He.
  assert ((100 <? py_len text)%nat = false) as -> by (apply Nat.ltb_ge; lia).
  pose proof (pdf_to_base64_image_value E w1) as Hv.
  destruct (pdf_to_base64_image E w1) as [r w2]. cbn in Hv. subst r. cbn.
  destruct (rendered_page E _) as [[|c b]|]; reflexivity.
Qed.

(** Building the request calls the model not at all. *)
Lemma build_messages_no_model_event (E : env) (w : world) :
  (exists o, fst (build_messages E w) = Ok o)
  /\ exists evs, trace (snd (build_messages E w)) = (trace w ++ evs)%list
                 /\ existsb model_event evs = false.
Proof.
  pose proof (extract_text_from_pdf_value E w) as Hv.
  destruct (extract_text_from_pdf_trace E w) as [prints [Ht [_ [Hm _]]]].
  destruct (extract_text_from_pdf E w) as [r w1] eqn:He. cbn in Hv, Ht. subst r.
  destruct (Nat.ltb_spec 100 (py_len (extracted_text_of (fst (PdfReader E (pdf_file w)))))) as [Hlen|Hlen].
  - rewrite (build_messages_text _ _ _ _ He Hlen). cbn. split; [eauto|].
    exists (Call_PdfReader :: prints). now rewrite Ht.
  - rewrite (build_messages_fallback _ _ _ _ He Hlen). cbn. split; [eauto|].
    destruct (pdf_to_base64_image_run E w1) as [o [evs [-> Hevs]]]. cbn.
    exists ((Call_PdfReader :: prints) ++ Call_read :: Call_seek 0 :: evs)%list.
    rewrite Ht, <- app_assoc. split; [reflexivity|].
    rewrite existsb_app. cbn. now rewrite Hm, Hevs.
Qed.

Lemma parse_after_build (E : env) (f : stream) (o : option (list message)) (w1 : world) :
  run (build_messages E) f = (Ok o, w1) ->
  run (parse_invoice_with_claude E) f =
  match o with
  | None => (Ok no_signal_error, w1)
  | Some msgs => call_and_parse E msgs w1
  end.
Proof.
  unfold run, parse_invoice_with_claude, bind. intros ->. now destruct o.
Qed.

Lemma call_and_parse_run (E : env) (msgs : list message) (w : world) :
  call_and_parse E msgs w =
  (match messages_create E (request_of msgs) with
   | Raise e => handlers None e
   | Ok response =>
       match decode_response E response with
       | (_, Ok parsed_data) => Ok parsed_data
       | (response_text, Raise e) => handlers response_text e
       end
   end,
   mkWorld (pdf_file w) (trace w ++ [Call_messages_create (request_of msgs)])).
Proof.
  unfold call_and_parse, call_messages_create, bind, log, lift, request_of. cbn.
  destruct (messages_create E _) as [response|e]; [|reflexivity].
  destruct (decode_response E response) as [rt [v|e]]; reflexivity.
Qed.

(** C3. When the extracted text is longer than 100 characters, the
    one request that is sent is in text mode, its content being the
    prompt, the line INVOICE TEXT: and the raw text, concatenated;
    the image renderer is not invoked: the calls of the whole run are
    the one to the PDF reader and the one to the model. *)
Theorem text_mode_never_renders (E : env) (f : stream) (text : string) :
  fst (run (extract_text_from_pdf E) f) = Ok text ->
  (100 < py_len text)%nat ->
  trace (snd (run (parse_invoice_with_claude E) f)) =
    [ Call_PdfReader;
      Call_messages_create
        (mkRequest "claude-sonnet-4-20250514" 2000
           [ mkMessage "user"
               (Text (extraction_prompt ++ nl ++ nl ++ "INVOICE TEXT:" ++ nl ++ text)) ]) ]
  /\ existsb renderer_event (trace (snd (run (parse_invoice_with_claude E) f))) = false.
Proof.
  intros Hv Hlen. unfold run in Hv.
  destruct (extract_text_from_pdf_trace E (mkWorld f [])) as [prints [Ht [_ [_ [_ Hp]]]]].
  destruct (extract_text_from_pdf E (mkWorld f [])) as [r w1] eqn:He.
  cbn in Hv, Ht, Hp. subst r.
  assert (prints = []) as ->.
  { apply Hp. destruct text; [cbn in Hlen; lia|reflexivity]. }
  pose proof (build_messages_text _ _ _ _ He Hlen) as Hb.
  rewrite (parse_after_build E f _ _ Hb), call_and_parse_run.
  cbn [snd trace]. rewrite Ht. cbn. split; reflexivity.
Qed.

(** C4. When the extracted text has at most 100 characters and the
    image renderer gives no image, the result is exactly the no-signal
    error and the model is not called. *)
Theorem no_signal_error_without_model_call (E : env) (f : stream) (text : string)
    (w1 : world) :
  run (extract_text_from_pdf E) f = (Ok text, w1) ->
  (py_len text <= 100)%nat ->
  fst (pdf_to_base64_image E w1) = Ok None ->
  fst (run (parse_invoice_with_claude E) f) =
    Ok (PyDict [("error",
                 PyStr "Could not process PDF - neither text nor image extraction worked")])
  /\ existsb model_event (trace (snd (run (parse_invoice_with_claude E) f))) = false.
Proof.
  intros He Hlen Himg. unfold run in He.
  pose proof (build_messages_fallback _ _ _ _ He Hlen) as Hb.
  pose proof (pdf_to_base64_image_value E w1) as Hv.
  rewrite Himg in Hv. injection Hv as Hv. rewrite <- Hv in Hb.
  rewrite (parse_after_build E f _ _ Hb). cbn [fst snd]. split; [reflexivity|].
  destruct (build_messages_no_model_event E (mkWorld f [])) as [_ [evs [Ht Hm]]].
  rewrite Hb in Ht. cbn [snd] in Ht. rewrite Ht. exact Hm.
Qed.

(** ** The reply *)

Lemma decode_response_text (E : env) (reply : string) (rest : list content_block) :
  decode_response E (TextBlock reply :: rest) =
  match strip_fences reply with
  | Raise e => (Some reply, Raise e)
  | Ok t => (Some t, json_loads E (strip t))
  end.
Proof. reflexivity. Qed.

Lemma parse_reply (E : env) (f : stream) (msgs : list message) (w1 : world)
    (reply t : string) (rest : list content_block) :
  run (build_messages E) f = (Ok (Some msgs), w1) ->
  messages_create E (request_of msgs) = Ok (TextBlock reply :: rest) ->
  strip_fences reply = Ok t ->
  fst (run (parse_invoice_with_claude E) f) =
  match json_loads E (strip t) with
  | Ok v => Ok v
  | Raise e => handlers (Some t) e
  end.
Proof.
  intros Hb Hc Hs. rewrite (parse_after_build E f _ _ Hb), call_and_parse_run.
  cbn [fst]. rewrite Hc, decode_response_text, Hs.
  now destruct (json_loads E (strip t)).
Qed.

(** A reply that [json.loads] rejects comes back under [raw_response]
    as the fence stripping has left it, not trimmed. *)
Lemma malformed_reply_error (E : env) (f : stream) (msgs : list message) (w1 : world)
    (reply t : string) (rest : list content_block) (e : exn) :
  run (build_messages E) f = (Ok (Some msgs), w1) ->
  messages_create E (request_of msgs) = Ok (TextBlock reply :: rest) ->
  strip_fences reply = Ok t ->
  json_loads E (strip t) = Raise e ->
  is_JSONDecodeError e = true ->
  fst (run (parse_invoice_with_claude E) f) =
  Ok (PyDict [("error", PyStr ("Failed to parse Claude's response as JSON: " ++ exn_str e));
              ("raw_response", PyStr t)]).
Proof.
  intros Hb Hc Hs Hj He. rewrite (parse_reply E f _ _ _ _ _ Hb Hc Hs), Hj.
  unfold handlers. now rewrite He.
Qed.

(** X9. Without a fence in the reply, [raw_response] of the
    malformed-reply error is the reply itself, whitespace included. *)
Lemma raw_response_verbatim_without_fence (E : env) (f : stream) (msgs : list message)
    (w1 : world) (reply : string) (rest : list content_block) (e : exn) :
  run (build_messages E) f = (Ok (Some msgs), w1) ->
  messages_create E (request_of msgs) = Ok (TextBlock reply :: rest) ->
  contains "```" reply = false ->
  json_loads E (strip reply) = Raise e ->
  is_JSONDecodeError e = true ->
  fst (run (parse_invoice_with_claude E) f) =
  Ok (PyDict [("error", PyStr ("Failed to parse Claude's response as JSON: " ++ exn_str e));
              ("raw_response", PyStr reply)]).
Proof.
  intros Hb Hc Hno. apply (malformed_reply_error E f msgs w1 reply reply rest e Hb Hc).
  now apply strip_fences_plain.
Qed.

(** X10. A failure of [json.loads] of another class than
    [json.JSONDecodeError] is reported as a failed call, without the
    reply. *)
Lemma decoder_failure_of_another_class (E : env) (f : stream) (msgs : list message)
    (w1 : world) (reply t : string) (rest : list content_block) (e : exn) :
  run (build_messages E) f = (Ok (Some msgs), w1) ->
  messages_create E (request_of msgs) = Ok (TextBlock reply :: rest) ->
  strip_fences reply = Ok t ->
  json_loads E (strip t) = Raise e ->
  is_JSONDecodeError e = false ->
  fst (run (parse_invoice_with_claude E) f) =
  Ok (PyDict [("error", PyStr ("API call failed: " ++ exn_str e))]).
Proof.
  intros Hb Hc Hs Hj He. rewrite (parse_reply E f _ _ _ _ _ Hb Hc Hs), Hj.
  unfold handlers. now rewrite He.
Qed.

(** C1. On the reply [```json], line feed, [not json], line feed,
    [```], which does not decode, the malformed-reply error carries
    the decoder's description, and under [raw_response] the text
    between the fences: not the reply as the model gave it. *)
Theorem raw_response_loses_the_fence :
  fst (run (parse_invoice_with_claude (digital_env fenced_garbage)) sample_file) =
    Ok (PyDict
          [("error",
            PyStr "Failed to parse Claude's response as JSON: Expecting value: line 1 column 1 (char 0)");
           ("raw_response", PyStr (nl ++ "not json" ++ nl))])
  /\ nl ++ "not json" ++ nl <> fenced_garbage.
Proof. split; [vm_compute; reflexivity | vm_compute; discriminate]. Qed.

(** X8. A failed model call of any class but [json.JSONDecodeError]
    is reported once: the call-failed error with the message of the
    exception, one call to the model, nothing raised. *)
Lemma call_failure_reported_once (E : env) (f : stream) (msgs : list message)
    (w1 : world) (e : exn) :
  run (build_messages E) f = (Ok (Some msgs), w1) ->
  messages_create E (request_of msgs) = Raise e ->
  is_JSONDecodeError e = false ->
  fst (run (parse_invoice_with_claude E) f) =
    Ok (PyDict [("error", PyStr ("API call failed: " ++ exn_str e))])
  /\ List.length (filter model_event (trace (snd (run (parse_invoice_with_claude E) f)))) = 1.
Proof.
  intros Hb Hc He. rewrite (parse_after_build E f _ _ Hb), call_and_parse_run.
  cbn [fst snd trace]. rewrite Hc. unfold handlers. rewrite He. split; [reflexivity|].
  destruct (build_messages_no_model_event E (mkWorld f [])) as [_ [evs [Ht Hm]]].
  unfold run in Hb. rewrite Hb in Ht. cbn in Ht. rewrite Ht, filter_app. cbn.
  rewrite length_app. cbn.
  assert (filter model_event evs = []) as ->; [|reflexivity].
  clear -Hm. induction evs as [|ev evs IH]; [reflexivity|].
  cbn in *. apply orb_false_iff in Hm. destruct Hm as [-> Hm]. now apply IH.
Qed.

(** A [json.JSONDecodeError] raised by the model call itself reaches
    the first handler while [response_text] is unbound. *)
Lemma model_call_decode_error_unbound (E : env) (f : stream) (msgs : list message)
    (w1 : world) (e : exn) :
  run (build_messages E) f = (Ok (Some msgs), w1) ->
  messages_create E (request_of msgs) = Raise e ->
  is_JSONDecodeError e = true ->
  fst (run (parse_invoice_with_claude E) f) = Raise unbound_response_text.
Proof.
  intros Hb Hc He. rewrite (parse_after_build E f _ _ Hb), call_and_parse_run.
  cbn [fst]. rewrite Hc. unfold handlers. now rewrite He.
Qed.

(** C6. When the model call on a scanned page fails with a
    [json.JSONDecodeError], as on a response body that is not JSON,
    no call-failed error is returned: [UnboundLocalError] leaves
    [parse_invoice_with_claude]. *)
Theorem model_call_decode_error_escapes :
  fst (run (parse_invoice_with_claude
              (scanned_env (mkExn JSONDecodeError "Expecting value: line 1 column 1 (char 0)")))
           sample_file)
  = Raise (mkExn UnboundLocalError
             "cannot access local variable 'response_text' where it is not associated with a value").
Proof. vm_compute. reflexivity. Qed.

(** C10. A reply that decodes is returned as decoded, whatever its
    shape: no check against the schema follows [json.loads]. *)
Theorem decoded_reply_returned_unchanged (E : env) (f : stream) (msgs : list message)
    (w1 : world) (reply t : string) (rest : list content_block) (v : pyvalue) :
  run (build_messages E) f = (Ok (Some msgs), w1) ->
  messages_create E (request_of msgs) = Ok (TextBlock reply :: rest) ->
  strip_fences reply = Ok t ->
  json_loads E (strip t) = Ok v ->
  fst (run (parse_invoice_with_claude E) f) = Ok v.
Proof.
  intros Hb Hc Hs Hj. now rewrite (parse_reply E f _ _ _ _ _ Hb Hc Hs), Hj.
Qed.

Lemma decoded_reply_returned_unchanged_witness :
  fst (run (parse_invoice_with_claude (digital_env "[1, 2]")) sample_file)
  = Ok (PyList [PyInt 1; PyInt 2]).
Proof.
  apply (decoded_reply_returned_unchanged (digital_env "[1, 2]") sample_file
           (text_messages digital_text)
           (mkWorld (mkStream [] 0) [Call_PdfReader]) "[1, 2]" "[1, 2]" []);
    vm_compute; reflexivity.
Defined.

(** C9. The reply that is exactly the object with the one member
    invoice_number, A1, decoded by [json.loads], is returned as a
    record: its invoice_number is A1, every other field of the
    schema is unset, and it is no error value. *)
Theorem minimal_reply_is_a_partial_record (E : env) (f : stream) (msgs : list message)
    (w1 : world) (rest : list content_block) :
  run (build_messages E) f = (Ok (Some msgs), w1) ->
  messages_create E (request_of msgs) = Ok (TextBlock minimal_reply :: rest) ->
  json_loads E minimal_reply = json_loads_ref minimal_reply ->
  fst (run (parse_invoice_with_claude E) f) = Ok (PyDict [("invoice_number", PyStr "A1")])
  /\ dict_get "invoice_number" [("invoice_number", PyStr "A1")] = Some (PyStr "A1")
  /\ (forall field, In field invoice_fields -> field <> "invoice_number" ->
      dict_get field [("invoice_number", PyStr "A1")] = None)
  /\ is_invoice_record (PyDict [("invoice_number", PyStr "A1")]) = true
  /\ is_error_value (PyDict [("invoice_number", PyStr "A1")]) = false.
Proof.
  intros Hb Hc Hj. split; [|repeat split].
  - rewrite (parse_reply E f msgs w1 minimal_reply minimal_reply rest Hb Hc)
      by (vm_compute; reflexivity).
    replace (strip minimal_reply) with minimal_reply by (vm_compute; reflexivity).
    rewrite Hj. vm_compute. reflexivity.
  - intros field Hin Hne. cbn in Hin.
    repeat (destruct Hin as [<-|Hin]; [first [congruence | reflexivity]|]).
    contradiction.
Qed.

Lemma minimal_reply_is_a_partial_record_witness :
  fst (run (parse_invoice_with_claude (digital_env minimal_reply)) sample_file)
  = Ok (PyDict [("invoice_number", PyStr "A1")]).
Proof.
  apply (minimal_reply_is_a_partial_record (digital_env minimal_reply) sample_file
           (text_messages digital_text)
           (mkWorld (mkStream [] 0) [Call_PdfReader]) []);
    vm_compute; reflexivity.
Defined.

Lemma text_mode_never_renders_witness :
  existsb renderer_event
    (trace (snd (run (parse_invoice_with_claude (digital_env "{}")) sample_file))) = false.
Proof.
  apply (text_mode_never_renders (digital_env "{}") sample_file digital_text);
    [vm_compute; reflexivity | vm_compute; lia].
Defined.

Lemma no_signal_error_without_model_call_witness :
  fst (run (parse_invoice_with_claude unreadable_env) sample_file) =
    Ok (PyDict [("error",
                 PyStr "Could not process PDF - neither text nor image extraction worked")])
  /\ existsb model_event
       (trace (snd (run (parse_invoice_with_claude unreadable_env) sample_file))) = false.
Proof.
  apply (no_signal_error_without_model_call unreadable_env sample_file EmptyString
           (mkWorld (mkStream [] 0)
              [Call_PdfReader; Call_print "Error extracting text: EOF marker not found"]));
    [vm_compute; reflexivity | vm_compute; lia | vm_compute; reflexivity].
Defined.

(** ** Either a record or an error *)

Lemma schema_field_is_not_error (k : string) :
  mem k invoice_fields = true -> String.eqb "error" k = false.
Proof.
  intros H. destruct (String.eqb_spec "error" k) as [<-|]; [discriminate H|reflexivity].
Qed.





(** ** The fence round trip *)




(** ** The text extractor, as a whole *)

(** C7, as the specification has it, fails: of two pages [a] and [b]
    the extractor returns [a], a line feed, [b], which is neither the
    two texts concatenated and trimmed nor the empty string. *)
Lemma page_texts_are_joined_by_line_feeds :
  fst (run (extract_text_from_pdf two_page_env) sample_file) = Ok ("a" ++ nl ++ "b")
  /\ concatenated_page_texts [Ok "a"; Ok "b"] = "ab"
  /\ "a" ++ nl ++ "b" <> concatenated_page_texts [Ok "a"; Ok "b"]
  /\ "a" ++ nl ++ "b" <> EmptyString.
Proof. repeat split; vm_compute; try reflexivity; discriminate. Qed.

(** C7, amended. For every document [extract_text_from_pdf] raises
    nothing and returns the non-empty page texts, a line feed after
    each, concatenated and trimmed of leading and trailing
    whitespace; it returns the empty string when no page has text
    and when the reader or the extraction of a page fails. *)
Theorem extract_text_from_pdf_total (E : env) (f : stream) :
  fst (run (extract_text_from_pdf E) f) = Ok (extracted_text_of (fst (PdfReader E f))).
Proof. unfold run. apply extract_text_from_pdf_value. Qed.

(** ** Examples *)

Example split_two_fences : split "```" "a```b```c" = ["a"; "b"; "c"].
Proof. reflexivity. Qed.

Example strip_is_unicode_aware :
  strip (" " ++ String (byte_char 194) (String (byte_char 160) ("x y" ++ nl))) = "x y".
Proof. reflexivity. Qed.

Example no_text_layer :
  extracted_text_of (Ok [Ok EmptyString; Ok EmptyString]) = EmptyString /\ extracted_text_of (Ok []) = EmptyString.
Proof. split; reflexivity. Qed.

Example decode_nested :
  json_loads_ref ("{" ++ q "total_amount" ++ ": 118.0, " ++ q "line_items" ++ ": [null, -3]}")
  = Ok (PyDict [("total_amount", PyFloat "118.0");
                ("line_items", PyList [PyNone; PyInt (-3)])]).
Proof. vm_compute. reflexivity. Qed.

Example long_integer_is_no_decode_error :
  match json_loads_ref (String.concat EmptyString (repeat "1" 4301)) with
  | Raise e => is_JSONDecodeError e
  | Ok _ => true
  end = false.
Proof. vm_compute. reflexivity. Qed.

Example image_mode_request :
  fst (run (build_messages (scanned_env (failure "APIConnectionError" "Connection error."))) sample_file)
  = Ok (Some [ mkMessage "user"
                 (Parts [ TextPart (extraction_prompt ++ nl ++ nl ++ "See the invoice image below:");
                          ImagePart "base64" "image/png" "iVBO" ]) ]).
Proof. vm_compute. reflexivity. Qed.

(** ** Fenced blocks in a longer reply *)

Lemma before_head (sep s : string) : startswith sep s = true -> before sep s = EmptyString.
Proof. unfold before. rewrite partition_eq. now intros ->. Qed.

Lemma before_cons (sep : string) (c : ascii) (r : string) :
  startswith sep (String c r) = false ->
  before sep (String c r) = String c (before sep r).
Proof.
  unfold before. rewrite partition_eq. intros ->.
  now destruct (partition sep r) as [[a b]|].
Qed.

Lemma before_absent (sep s : string) : contains sep s = false -> before sep s = s.
Proof. unfold contains, before. now destruct (partition sep s). Qed.

Lemma before_is_prefix (sep s : string) : exists z, s = before sep s ++ z.
Proof.
  induction s as [|c s [z IH]].
  - unfold before. rewrite partition_eq.
    destruct (startswith sep EmptyString); now exists EmptyString.
  - destruct (startswith sep (String c s)) eqn:H.
    + rewrite (before_head _ _ H). now exists (String c s).
    + rewrite (before_cons _ _ _ H). exists z. cbn. now rewrite <- IH.
Qed.

Lemma startswith_longer (p x z : string) :
  startswith p x = true -> startswith p (x ++ z) = true.
Proof.
  revert x. induction p as [|a p IH]; intros x H; [reflexivity|].
  destruct x as [|b x]; [discriminate|]. cbn in *.
  apply andb_true_iff in H. destruct H as [-> H]. now apply IH.
Qed.

(** Element 0 and element 1 of a split. *)
Lemma split_fuel_first (n : nat) (sep s : string) :
  exists rest, split_fuel n sep s = before sep s :: rest.
Proof.
  unfold before. destruct n; cbn; destruct (partition sep s) as [[a b]|]; eauto.
Qed.

Lemma split_index_0 (sep s : string) : index (split sep s) 0 = Ok (before sep s).
Proof.
  unfold split. destruct (split_fuel_first (String.length s) sep s) as [rest ->].
  reflexivity.
Qed.

Lemma split_index_1 (sep s a b : string) :
  partition sep s = Some (a, b) -> index (split sep s) 1 = Ok (before sep b).
Proof.
  intros Hp. unfold split. destruct (String.length s) as [|n] eqn:Hn; cbn; rewrite Hp.
  - destruct s; [|discriminate]. rewrite partition_eq in Hp.
    destruct (startswith sep EmptyString) eqn:Hs; [|discriminate].
    injection Hp as <- <-. destruct sep; [|discriminate]. reflexivity.
  - destruct (split_fuel_first n sep b) as [rest ->]. reflexivity.
Qed.

(** What lines 185-188 compute, without lists. *)
Lemma strip_fences_eq (reply : string) :
  strip_fences reply =
  Ok (match partition "```json" reply with
      | Some (_, after) => before "```" (before "```json" after)
      | None =>
          match partition "```" reply with
          | Some (_, after) => before "```" (before "```" after)
          | None => reply
          end
      end).
Proof.
  unfold strip_fences, contains.
  destruct (partition "```json" reply) as [[pre after]|] eqn:Ht.
  - rewrite (split_index_1 _ _ _ _ Ht). cbn [res_bind]. apply split_index_0.
  - destruct (partition "```" reply) as [[pre after]|] eqn:Hf; [|reflexivity].
    rewrite (split_index_1 _ _ _ _ Hf). cbn [res_bind]. apply split_index_0.
Qed.

Lemma before_empty (sep : string) : before sep EmptyString = EmptyString.
Proof. unfold before. rewrite partition_eq. now destruct (startswith sep EmptyString). Qed.

Lemma before_twice (sep s : string) : before sep (before sep s) = before sep s.
Proof.
  induction s as [|c s IH].
  - now rewrite !before_empty.
  - destruct (startswith sep (String c s)) eqn:H.
    + rewrite (before_head _ _ H). apply before_empty.
    + rewrite (before_cons _ _ _ H).
      destruct (startswith sep (String c (before sep s))) eqn:H'.
      * destruct (before_is_prefix sep s) as [z Hz].
        pose proof (startswith_longer _ _ z H') as Hl. cbn in Hl.
        rewrite <- Hz in Hl. congruence.
      * now rewrite (before_cons _ _ _ H'), IH.
Qed.

Lemma no_fence_at_head (c : ascii) (s post : string) :
  contains "```" (String c s) = false ->
  last_char (String c s) <> Some "`"%char ->
  startswith "```" (String c s ++ "```" ++ post) = false.
Proof.
  intros Hno Hlast. apply contains_tail in Hno. destruct Hno as [Hhead _].
  destruct s as [|c2 [|c3 s]]; by_chars.
Qed.

Lemma tag_cut_keeps_the_fence (post : string) :
  startswith "`" post = false ->
  before "```" (before "```json" (String "`" (String "`" (String "`" post)))) = EmptyString.
Proof.
  intros Hpost.
  destruct (startswith "```json" (String "`" (String "`" (String "`" post)))) eqn:Htag.
  - rewrite (before_head _ _ Htag). apply before_empty.
  - apply before_head.
    rewrite (before_cons _ _ _ Htag).
    assert (startswith "```json" (String "`" (String "`" post)) = false) as H2
      by (destruct post as [|p0 post]; by_chars).
    rewrite (before_cons _ _ _ H2).
    assert (startswith "```json" (String "`" post) = false) as H1
      by (destruct post as [|p0 [|p1 post]]; by_chars).
    rewrite (before_cons _ _ _ H1). reflexivity.
Qed.

(** The text up to the closing fence, when the text after the opening
    fence is cut at the next tagged marker first. *)
Lemma closing_fence_after_tag_cut (inner post : string) :
  contains "```" inner = false ->
  last_char inner <> Some "`"%char ->
  startswith "`" post = false ->
  before "```" (before "```json" (inner ++ "```" ++ post)) = inner.
Proof.
  intros Hno Hlast Hpost. induction inner as [|c s IH].
  - exact (tag_cut_keeps_the_fence post Hpost).
  - pose proof (no_fence_at_head c s post Hno Hlast) as Hhead.
    change (String c s ++ "```" ++ post) with (String c (s ++ "```" ++ post)) in *.
    assert (startswith "```json" (String c (s ++ "```" ++ post)) = false) as Htag.
    { destruct (startswith "```json" (String c (s ++ "```" ++ post))) eqn:H; [|reflexivity].
      apply (startswith_shorter "```" "json") in H. congruence. }
    rewrite (before_cons _ _ _ Htag).
    assert (startswith "```" (String c (before "```json" (s ++ "```" ++ post))) = false) as Hx.
    { destruct (startswith "```" (String c (before "```json" (s ++ "```" ++ post)))) eqn:H;
        [|reflexivity].
      destruct (before_is_prefix "```json" (s ++ "```" ++ post)) as [z Hz].
      pose proof (startswith_longer _ _ z H) as Hl.
      change (startswith "```"
                (String c (before "```json" (s ++ "```" ++ post) ++ z)) = true) in Hl.
      rewrite <- Hz in Hl. congruence. }
    rewrite (before_cons _ _ _ Hx). f_equal.
    apply contains_tail in Hno. destruct Hno as [_ Hno].
    destruct s as [|d s].
    + exact (tag_cut_keeps_the_fence post Hpost).
    + apply IH; [exact Hno|]. now rewrite last_char_tail in Hlast.
Qed.

Lemma closing_fence_cut (inner post : string) :
  contains "```" inner = false ->
  last_char inner <> Some "`"%char ->
  before "```" (inner ++ "```" ++ post) = inner.
Proof.
  intros Hno Hlast. induction inner as [|c s IH].
  - reflexivity.
  - pose proof (no_fence_at_head c s post Hno Hlast) as Hhead.
    change (String c s ++ "```" ++ post) with (String c (s ++ "```" ++ post)) in *.
    rewrite (before_cons _ _ _ Hhead). f_equal.
    apply contains_tail in Hno. destruct Hno as [_ Hno].
    destruct s as [|d s]; [reflexivity|].
    apply IH; [exact Hno|]. now rewrite last_char_tail in Hlast.
Qed.

(** X11. In a reply that holds a tagged fence, what goes to the decoder
    is the content of the first tagged block: the text before the
    first tagged marker, bare fences included, and the text after
    the closing fence, further blocks included, are dropped. *)
Theorem first_tagged_block_is_extracted (reply pre inner post : string) :
  partition "```json" reply = Some (pre, inner ++ "```" ++ post) ->
  contains "```" inner = false ->
  last_char inner <> Some "`"%char ->
  startswith "`" post = false ->
  strip_fences reply = Ok inner.
Proof.
  intros Hp Hno Hlast Hpost. rewrite strip_fences_eq, Hp.
  now rewrite closing_fence_after_tag_cut.
Qed.

Lemma first_tagged_block_is_extracted_witness :
  decoder_input ("Here is a sketch: ```" ++ nl ++ "draft" ++ nl ++ "``` and the data: ```json"
                 ++ nl ++ minimal_reply ++ nl ++ "``` or else ```json" ++ nl ++ "[]" ++ nl ++ "```")
  = Ok minimal_reply.
Proof.
  unfold decoder_input.
  rewrite (first_tagged_block_is_extracted _
             ("Here is a sketch: ```" ++ nl ++ "draft" ++ nl ++ "``` and the data: ")
             (nl ++ minimal_reply ++ nl)
             (" or else ```json" ++ nl ++ "[]" ++ nl ++ "```"));
    [reflexivity | vm_compute; reflexivity | vm_compute; reflexivity
     | vm_compute; discriminate | vm_compute; reflexivity].
Defined.

(** X12. In a reply without a tagged marker that holds a bare fence,
    what goes to the decoder is the content of the first bare block;
    the text around it is dropped. *)
Theorem first_bare_block_is_extracted (reply pre inner post : string) :
  contains "```json" reply = false ->
  partition "```" reply = Some (pre, inner ++ "```" ++ post) ->
  contains "```" inner = false ->
  last_char inner <> Some "`"%char ->
  strip_fences reply = Ok inner.
Proof.
  intros Htag Hp Hno Hlast. rewrite strip_fences_eq. unfold contains in Htag.
  destruct (partition "```json" reply); [discriminate|]. rewrite Hp.
  now rewrite before_twice, closing_fence_cut.
Qed.

Lemma first_bare_block_is_extracted_witness :
  decoder_input ("Result:" ++ nl ++ "```" ++ nl ++ "[1, 2]" ++ nl ++ "```" ++ nl ++ "Let me know. ```x```")
  = Ok "[1, 2]".
Proof.
  unfold decoder_input.
  rewrite (first_bare_block_is_extracted _ ("Result:" ++ nl) (nl ++ "[1, 2]" ++ nl)
             (nl ++ "Let me know. ```x```"));
    [reflexivity | vm_compute; reflexivity | vm_compute; reflexivity
     | vm_compute; reflexivity | vm_compute; discriminate].
Defined.

(** X13. A fence that is never closed, as in a reply cut short, is
    no error: everything after the opening marker goes to the
    decoder. *)
Theorem unclosed_fence_runs_to_the_end (reply pre rest : string) :
  (partition "```json" reply = Some (pre, rest)
   \/ (contains "```json" reply = false /\ partition "```" reply = Some (pre, rest))) ->
  contains "```" rest = false ->
  strip_fences reply = Ok rest.
Proof.
  intros [Hp|[Htag Hp]] Hno; rewrite strip_fences_eq.
  - rewrite Hp. rewrite (before_absent "```json" rest).
    + now rewrite (before_absent "```" rest Hno).
    + exact (contains_shorter "```" "json" rest Hno).
  - unfold contains in Htag. destruct (partition "```json" reply); [discriminate|].
    rewrite Hp. now rewrite !(before_absent "```" rest Hno).
Qed.

Lemma unclosed_fence_runs_to_the_end_witness :
  strip_fences ("```json" ++ nl ++ "{" ++ q "invoice_number" ++ ": ")
  = Ok (nl ++ "{" ++ q "invoice_number" ++ ": ").
Proof.
  apply (unclosed_fence_runs_to_the_end _ EmptyString);
    [left; vm_compute; reflexivity | vm_compute; reflexivity].
Defined.

(** X14. Lines 185-188 never raise: after the test [in], the split
    has an element of index 1, and every split has an element 0. *)
Theorem fence_stripping_never_raises (reply : string) :
  exists t, strip_fences reply = Ok t.
Proof. rewrite strip_fences_eq. eauto. Qed.

(** ** The run as a whole *)

Lemma filter_none {A} (p : A -> bool) (l : list A) :
  existsb p l = false -> filter p l = [].
Proof.
  induction l as [|x l IH]; [reflexivity|]. cbn. intros H.
  apply orb_false_iff in H. destruct H as [-> H]. now apply IH.
Qed.

Lemma standard_b64encode_nonempty (b : Byte.byte) (l : list Byte.byte) :
  exists c s, standard_b64encode (b :: l) = String c s.
Proof. destruct l as [|b2 [|b3 l]]; cbn [standard_b64encode]; eauto. Qed.

Lemma pdf_to_base64_image_calls (E : env) (w : world) :
  exists evs,
    pdf_to_base64_image E w =
    (Ok (rendered_page E (skipn (pos (pdf_file w)) (data (pdf_file w)))),
     mkWorld (mkStream (data (pdf_file w)) 0)
       (trace w ++ Call_read :: Call_seek 0
          :: Call_convert_from_bytes (skipn (pos (pdf_file w)) (data (pdf_file w))) :: evs))
    /\ existsb model_event evs = false
    /\ existsb convert_event evs = false.
Proof.
  unfold pdf_to_base64_image, rendered_page, try_except, bind, file_read, file_seek,
    call_convert_from_bytes, call_save, lift, ret, print, log.
  cbn.
  destruct (convert_from_bytes E (skipn (pos (pdf_file w)) (data (pdf_file w))))
    as [[|img images]|e]; cbn.
  - eexists. rewrite <- !app_assoc. cbn. repeat split.
  - destruct (save_png E img) as [png|e]; cbn;
      eexists; rewrite <- !app_assoc; cbn; repeat split.
  - eexists. rewrite <- !app_assoc. cbn. repeat split.
Qed.

(** Lines 86-171 on an uploaded file: the messages, the file and the
    calls, in the two modes. *)
Lemma build_messages_run (E : env) (f : stream) :
  exists prints,
    existsb model_event prints = false
    /\ existsb renderer_event prints = false
    /\ if (100 <? py_len (extracted_text_of (fst (PdfReader E f))))%nat then
         run (build_messages E) f =
         (Ok (Some (text_messages (extracted_text_of (fst (PdfReader E f))))),
          mkWorld (mkStream (data f) (snd (PdfReader E f))) (Call_PdfReader :: prints))
       else
         exists evs,
           existsb model_event evs = false
           /\ existsb convert_event evs = false
           /\ run (build_messages E) f =
              (Ok (match rendered_page E (skipn (snd (PdfReader E f)) (data f)) with
                   | Some (String c b) => Some (image_messages (String c b))
                   | _ => None
                   end),
               mkWorld (mkStream (data f) 0)
                 (Call_PdfReader :: prints ++ Call_read :: Call_seek 0
                    :: Call_convert_from_bytes (skipn (snd (PdfReader E f)) (data f)) :: evs)).
Proof.
  pose proof (extract_text_from_pdf_value E (mkWorld f [])) as Hv.
  pose proof (extract_text_from_pdf_run E (mkWorld f [])) as Hr.
  destruct (extract_text_from_pdf_trace E (mkWorld f [])) as [prints [Ht [_ [Hm [Hn _]]]]].
  destruct (extract_text_from_pdf E (mkWorld f [])) as [r w1] eqn:He.
  cbn [fst snd pdf_file trace data app] in Hv, Ht, Hr. subst r.
  assert (w1 = mkWorld (mkStream (data f) (snd (PdfReader E f))) (Call_PdfReader :: prints))
    as Hw.
  { assert (pdf_file w1 = mkStream (data f) (snd (PdfReader E f))) as Hf.
    { cbv zeta in Hr.
      destruct (pages <~ fst (PdfReader E f) ;; text <~ page_loop pages EmptyString ;;
                Ok (strip text));
        injection Hr as _ ->; reflexivity. }
    destruct w1 as [pf tr]. cbn in Hf, Ht. now subst. }
  exists prints. split; [exact Hm|]. split; [exact Hn|].
  destruct (Nat.ltb_spec 100 (py_len (extracted_text_of (fst (PdfReader E f))))) as [Hlen|Hlen].
  - unfold run. rewrite (build_messages_text _ _ _ _ He Hlen). now rewrite Hw.
  - unfold run. rewrite (build_messages_fallback _ _ _ _ He Hlen).
    destruct (pdf_to_base64_image_calls E w1) as [evs [-> [Hevs Hcv]]].
    exists evs. split; [exact Hevs|]. split; [exact Hcv|]. subst w1. cbn. reflexivity.
Qed.

(** X1. When the extracted text has at most 100 characters and the
    first page renders to a non-empty PNG, the model is called once,
    in image mode: one user message with the prompt followed by the
    note about the image, and the PNG in base64 with media type
    image/png. *)
Theorem image_mode_request_sent (E : env) (f : stream) (img : image)
    (images : list image) (png : list Byte.byte) :
  (py_len (extracted_text_of (fst (PdfReader E f))) <= 100)%nat ->
  convert_from_bytes E (skipn (snd (PdfReader E f)) (data f)) = Ok (img :: images) ->
  save_png E img = Ok png ->
  png <> [] ->
  filter model_event (trace (snd (run (parse_invoice_with_claude E) f))) =
  [ Call_messages_create
      (mkRequest "claude-sonnet-4-20250514" 2000
         [ mkMessage "user"
             (Parts [ TextPart (extraction_prompt ++ nl ++ nl ++ "See the invoice image below:");
                      ImagePart "base64" "image/png" (standard_b64encode png) ]) ]) ].
Proof.
  intros Hlen Hc Hs Hpng.
  destruct (build_messages_run E f) as [prints [Hm [_ Hb]]].
  apply Nat.ltb_ge in Hlen. rewrite Hlen in Hb. destruct Hb as [evs [Hevs [_ Hb]]].
  unfold rendered_page in Hb. rewrite Hc, Hs in Hb.
  destruct png as [|b png]; [congruence|].
  destruct (standard_b64encode_nonempty b png) as [c [s Henc]]. rewrite Henc in Hb.
  rewrite (parse_after_build E f _ _ Hb), call_and_parse_run. cbn [snd trace].
  rewrite filter_app. cbn [filter model_event].
  rewrite filter_app, (filter_none _ _ Hm). cbn [filter model_event app].
  now rewrite (filter_none _ _ Hevs), Henc.
Qed.

Lemma image_mode_request_sent_witness :
  filter model_event
    (trace (snd (run (parse_invoice_with_claude (rendering_env (Ok [TextBlock "{}"])))
                   sample_file))) =
  [ Call_messages_create
      (mkRequest "claude-sonnet-4-20250514" 2000
         [ mkMessage "user"
             (Parts [ TextPart (extraction_prompt ++ nl ++ nl ++ "See the invoice image below:");
                      ImagePart "base64" "image/png" "iVBO" ]) ]) ].
Proof.
  apply (image_mode_request_sent (rendering_env (Ok [TextBlock "{}"])) sample_file
           [Byte.x89; Byte.x50; Byte.x4e] [] [Byte.x89; Byte.x50; Byte.x4e]);
    [vm_compute; lia | reflexivity | reflexivity | discriminate].
Defined.

(** X2. In the fallback, the renderer converts, once, the bytes that
    follow the cursor as the PDF reader has left it, not the file
    from its beginning: [seek(0)] comes after [read()]. *)
Theorem renderer_reads_from_the_cursor (E : env) (f : stream) :
  (py_len (extracted_text_of (fst (PdfReader E f))) <= 100)%nat ->
  filter convert_event (trace (snd (run (parse_invoice_with_claude E) f))) =
  [Call_convert_from_bytes (skipn (snd (PdfReader E f)) (data f))].
Proof.
  intros Hlen.
  destruct (build_messages_run E f) as [prints [_ [Hn Hb]]].
  apply Nat.ltb_ge in Hlen. rewrite Hlen in Hb. destruct Hb as [evs [_ [Hcv Hb]]].
  assert (existsb convert_event prints = false) as Hp.
  { clear -Hn. induction prints as [|ev l IH]; [reflexivity|]. cbn in *.
    apply orb_false_iff in Hn. destruct Hn as [Hev H]. rewrite (IH H).
    now destruct ev. }
  assert (filter convert_event
            (Call_PdfReader :: prints ++ Call_read :: Call_seek 0
               :: Call_convert_from_bytes (skipn (snd (PdfReader E f)) (data f)) :: evs)
          = [Call_convert_from_bytes (skipn (snd (PdfReader E f)) (data f))]) as Hf.
  { cbn [filter convert_event]. rewrite filter_app, (filter_none _ _ Hp).
    cbn [filter convert_event app]. now rewrite (filter_none _ _ Hcv). }
  rewrite (parse_after_build E f _ _ Hb).
  destruct (rendered_page E _) as [[|c b]|]; cbn [snd trace]; try exact Hf.
  rewrite call_and_parse_run. cbn [snd trace]. rewrite filter_app, Hf. reflexivity.
Qed.

Lemma renderer_reads_from_the_cursor_witness :
  filter convert_event (trace (snd (run (parse_invoice_with_claude seeking_env) five_bytes))) =
  [Call_convert_from_bytes [Byte.x44; Byte.x46; Byte.x2d]].
Proof.
  apply (renderer_reads_from_the_cursor seeking_env five_bytes). vm_compute. lia.
Defined.

(** X3. Whatever happens, the bytes of the uploaded file are as they
    were when [parse_invoice_with_claude] ends; its cursor is at the
    beginning after the fallback, and where the PDF reader has left
    it after the text mode. *)
Theorem upload_left_intact (E : env) (f : stream) :
  data (pdf_file (snd (run (parse_invoice_with_claude E) f))) = data f
  /\ pos (pdf_file (snd (run (parse_invoice_with_claude E) f))) =
     if (100 <? py_len (extracted_text_of (fst (PdfReader E f))))%nat
     then snd (PdfReader E f) else 0.
Proof.
  destruct (build_messages_run E f) as [prints [_ [_ Hb]]].
  destruct (100 <? py_len (extracted_text_of (fst (PdfReader E f))))%nat.
  - rewrite (parse_after_build E f _ _ Hb), call_and_parse_run. split; reflexivity.
  - destruct Hb as [evs [_ [_ Hb]]]. rewrite (parse_after_build E f _ _ Hb).
    destruct (rendered_page E _) as [[|c b]|]; try (split; reflexivity).
    rewrite call_and_parse_run. split; reflexivity.
Qed.


(** X5. The one exception that can leave [parse_invoice_with_claude]
    is the [UnboundLocalError] of an unbound [response_text], and it
    leaves only when the model call itself has raised a
    [json.JSONDecodeError]; in every other run a value is returned. *)
Theorem only_unbound_response_text_escapes (E : env) (f : stream) :
  (exists v, fst (run (parse_invoice_with_claude E) f) = Ok v)
  \/ (fst (run (parse_invoice_with_claude E) f) = Raise unbound_response_text
      /\ exists msgs e,
           messages_create E (request_of msgs) = Raise e /\ is_JSONDecodeError e = true).
Proof.
  destruct (build_messages_no_model_event E (mkWorld f [])) as [[o Ho] _].
  destruct (run (build_messages E) f) as [r w1] eqn:Hb.
  unfold run in Hb. rewrite Hb in Ho. cbn in Ho. subst r.
  rewrite (parse_after_build E f _ _ Hb).
  destruct o as [msgs|]; [|left; eexists; reflexivity].
  rewrite call_and_parse_run. cbn [fst].
  destruct (messages_create E (request_of msgs)) as [response|e] eqn:Hc.
  - left. destruct response as [|[reply|name] rest];
      [cbn; eexists; reflexivity| |cbn; eexists; reflexivity].
    rewrite decode_response_text. destruct (strip_fences_total reply) as [t ->].
    destruct (json_loads E (strip t)) as [v|e]; [eexists; reflexivity|].
    unfold handlers. destruct (is_JSONDecodeError e); eexists; reflexivity.
  - unfold handlers. destruct (is_JSONDecodeError e) eqn:He.
    + right. split; [reflexivity|]. now exists msgs, e.
    + left. eexists. reflexivity.
Qed.

(** X6. A response without any content block is reported as a failed
    call, with the message of the [IndexError] and no raw reply. *)
Theorem empty_response_is_a_failed_call (E : env) (f : stream) (msgs : list message)
    (w1 : world) :
  run (build_messages E) f = (Ok (Some msgs), w1) ->
  messages_create E (request_of msgs) = Ok [] ->
  fst (run (parse_invoice_with_claude E) f) =
  Ok (PyDict [("error", PyStr "API call failed: list index out of range")]).
Proof.
  intros Hb Hc. rewrite (parse_after_build E f _ _ Hb), call_and_parse_run.
  cbn [fst]. now rewrite Hc.
Qed.

Lemma empty_response_is_a_failed_call_witness :
  fst (run (parse_invoice_with_claude (answering_env (Ok []))) sample_file) =
  Ok (PyDict [("error", PyStr "API call failed: list index out of range")]).
Proof.
  apply (empty_response_is_a_failed_call (answering_env (Ok [])) sample_file
           (text_messages digital_text) (mkWorld (mkStream [] 0) [Call_PdfReader]));
    vm_compute; reflexivity.
Defined.

(** X7. A response whose first block has no text, whatever follows
    it, is reported as a failed call, with the message of the
    [AttributeError] and no raw reply. *)
Theorem non_text_block_is_a_failed_call (E : env) (f : stream) (msgs : list message)
    (w1 : world) (name : string) (rest : list content_block) :
  run (build_messages E) f = (Ok (Some msgs), w1) ->
  messages_create E (request_of msgs) = Ok (OtherBlock name :: rest) ->
  fst (run (parse_invoice_with_claude E) f) =
  Ok (PyDict [("error",
               PyStr ("API call failed: '" ++ name ++ "' object has no attribute 'text'"))]).
Proof.
  intros Hb Hc. rewrite (parse_after_build E f _ _ Hb), call_and_parse_run.
  cbn [fst]. now rewrite Hc.
Qed.

Lemma non_text_block_is_a_failed_call_witness :
  fst (run (parse_invoice_with_claude
              (answering_env (Ok [OtherBlock "ToolUseBlock"; TextBlock "{}"]))) sample_file) =
  Ok (PyDict [("error",
               PyStr "API call failed: 'ToolUseBlock' object has no attribute 'text'")]).
Proof.
  apply (non_text_block_is_a_failed_call
           (answering_env (Ok [OtherBlock "ToolUseBlock"; TextBlock "{}"])) sample_file
           (text_messages digital_text) (mkWorld (mkStream [] 0) [Call_PdfReader])
           "ToolUseBlock" [TextBlock "{}"]);
    vm_compute; reflexivity.
Defined.

Lemma call_failure_reported_once_witness :
  fst (run (parse_invoice_with_claude
              (rendering_env (Raise (failure "APIConnectionError" "Connection error."))))
           sample_file) =
  Ok (PyDict [("error", PyStr "API call failed: Connection error.")])
  /\ List.length
       (filter model_event
          (trace (snd (run (parse_invoice_with_claude
                              (rendering_env
                                 (Raise (failure "APIConnectionError" "Connection error."))))
                         sample_file)))) = 1.
Proof.
  eapply (call_failure_reported_once
            (rendering_env (Raise (failure "APIConnectionError" "Connection error.")))
            sample_file (image_messages "iVBO") _
            (failure "APIConnectionError" "Connection error."));
    vm_compute; reflexivity.
Defined.

Lemma raw_response_verbatim_without_fence_witness :
  fst (run (parse_invoice_with_claude (digital_env ("  Sorry, no invoice here." ++ nl)))
           sample_file) =
  Ok (PyDict
        [("error",
          PyStr "Failed to parse Claude's response as JSON: Expecting value: line 1 column 1 (char 0)");
         ("raw_response", PyStr ("  Sorry, no invoice here." ++ nl))]).
Proof.
  apply (raw_response_verbatim_without_fence
           (digital_env ("  Sorry, no invoice here." ++ nl)) sample_file
           (text_messages digital_text) (mkWorld (mkStream [] 0) [Call_PdfReader])
           ("  Sorry, no invoice here." ++ nl) []
           (mkExn JSONDecodeError "Expecting value: line 1 column 1 (char 0)"));
    vm_compute; reflexivity.
Defined.

Lemma decoder_failure_of_another_class_witness :
  exists msg,
    fst (run (parse_invoice_with_claude
                (digital_env (String.concat EmptyString (repeat "1" 4301)))) sample_file) =
    Ok (PyDict [("error", PyStr ("API call failed: " ++ msg))]).
Proof.
  eexists.
  eapply (decoder_failure_of_another_class
            (digital_env (String.concat EmptyString (repeat "1" 4301))) sample_file
            (text_messages digital_text) (mkWorld (mkStream [] 0) [Call_PdfReader])
            (String.concat EmptyString (repeat "1" 4301))
            (String.concat EmptyString (repeat "1" 4301)) []);
    vm_compute; reflexivity.
Defined.

(** ** format_currency *)

Lemma format_currency_is_ok (U : ui_env) (amount currency : pyvalue) :
  is_ok (format_currency U amount currency) =
  match amount with
  | PyNone => true
  | PyBool _ | PyInt _ | PyFloat _ => is_ok (format_2f U amount)
  | PyStr _ | PyList _ | PyDict _ => false
  end.
Proof.
  unfold format_currency, format_amount.
  destruct amount; try reflexivity;
    destruct (py_eq_str currency "INR"); cbn; try reflexivity;
    destruct (format_2f U _); reflexivity.
Qed.

(** X15. [format_currency] gives a text exactly for [None], whatever
    the currency, and for the numbers that Python formats; an amount
    that is a text, a list or a record makes it raise. *)
Theorem format_currency_domain (U : ui_env) (amount currency : pyvalue) :
  is_ok (format_currency U amount currency) =
  match amount with
  | PyNone => true
  | PyBool _ | PyInt _ | PyFloat _ => is_ok (format_2f U amount)
  | PyStr _ | PyList _ | PyDict _ => false
  end.
Proof. apply format_currency_is_ok. Qed.

(** ** The page *)

Lemma ui_bind_is_ok {A B} (m : UI A) (k : A -> UI B) (out : list st_call) :
  is_ok (fst (ui_bind m k out)) =
  match fst (m out) with
  | Ok a => is_ok (fst (k a (snd (m out))))
  | Raise _ => false
  end.
Proof. unfold ui_bind. now destruct (m out) as [[a|e] out']. Qed.

Lemma ui_seq_is_ok (c : bool) (m : UI unit) {B} (k : unit -> UI B) (out : list st_call) :
  (forall o, is_ok (fst (m o)) = c) ->
  is_ok (fst (ui_bind m k out)) = c && is_ok (fst (k tt (snd (m out)))).
Proof.
  intros H. rewrite ui_bind_is_ok. specialize (H out).
  destruct (fst (m out)) as [[]|e]; cbn in H; now subst.
Qed.

Lemma st_is_ok (c : st_call) (out : list st_call) : is_ok (fst (st c out)) = true.
Proof. reflexivity. Qed.

Lemma markdown_member_dict (U : ui_env) (label : string) (d : list (string * pyvalue))
    (key : string) (out : list st_call) :
  is_ok (fst (markdown_member U label (PyDict d) key out)) = true.
Proof. reflexivity. Qed.

Lemma party_details_is_ok (U : ui_env) (title key : string) (d : list (string * pyvalue))
    (out : list st_call) :
  is_ok (fst (party_details U title key (PyDict d) out)) = object_or_absent d key.
Proof.
  unfold party_details, object_or_absent, markdown_member, ui_bind, ui_lift, st.
  cbn [py_get fst snd].
  destruct (dict_get key d) as [[]|]; reflexivity.
Qed.

Lemma basic_information_is_ok (U : ui_env) (d : list (string * pyvalue))
    (out : list st_call) :
  is_ok (fst (basic_information U (PyDict d) out)) =
  object_or_absent d "vendor" && object_or_absent d "buyer".
Proof.
  unfold basic_information.
  repeat (first [ rewrite (ui_seq_is_ok true) by (intros; apply st_is_ok)
                | rewrite (ui_seq_is_ok true) by (intros; apply markdown_member_dict) ];
          cbn [andb]).
  rewrite (ui_seq_is_ok (object_or_absent d "vendor"))
    by (intros; apply party_details_is_ok).
  f_equal. rewrite (ui_seq_is_ok true) by (intros; apply st_is_ok).
  apply party_details_is_ok.
Qed.

Lemma ui_lift_bind {A B} (a : A) (k : A -> UI B) (out : list st_call) :
  ui_bind (ui_lift (Ok a)) k out = k a out.
Proof. reflexivity. Qed.

Lemma metric_member_is_ok (U : ui_env) (label : string) (v : pyvalue) (key : string)
    (currency : pyvalue) (out : list st_call) :
  is_ok (fst (metric_member U label v key currency out)) =
  match v with
  | PyDict t => is_ok (format_currency U (member t key PyNone) currency)
  | _ => false
  end.
Proof.
  unfold metric_member, ui_bind, ui_lift, st, member.
  destruct v; cbn [py_get fst]; try reflexivity.
  now destruct (format_currency U _ currency).
Qed.

Lemma markdown_amount_is_ok (U : ui_env) (label : string) (v : pyvalue) (key : string)
    (currency : pyvalue) (out : list st_call) :
  is_ok (fst (markdown_amount U label v key currency out)) =
  match v with
  | PyDict t => is_ok (format_currency U (member t key PyNone) currency)
  | _ => false
  end.
Proof.
  unfold markdown_amount, ui_bind, ui_lift, st, member.
  destruct v; cbn [py_get fst]; try reflexivity.
  now destruct (format_currency U _ currency).
Qed.

Lemma financial_summary_is_ok (U : ui_env) (d : list (string * pyvalue))
    (out : list st_call) :
  is_ok (fst (financial_summary U (PyDict d) out)) =
  (let currency := member d "currency" (PyStr "INR") in
   let tax := members_of (member d "tax_details" (PyDict [])) in
   let shown k from := is_ok (format_currency U (member from k PyNone) currency) in
   shown "subtotal" d
   && object_or_absent d "tax_details"
   && shown "total_tax" tax
   && shown "total_amount" d
   && shown "cgst" tax
   && shown "sgst" tax
   && shown "igst" tax).
Proof.
  unfold financial_summary, object_or_absent. cbv zeta. cbn [py_get].
  rewrite <- !andb_assoc.
  rewrite (ui_seq_is_ok true) by (intros; apply st_is_ok). cbn [andb].
  rewrite ui_lift_bind.
  rewrite (ui_seq_is_ok true) by (intros; apply st_is_ok). cbn [andb].
  erewrite ui_seq_is_ok by (intros; apply metric_member_is_ok).
  cbv iota beta. apply (f_equal2 andb); [reflexivity|]. cbv beta. rewrite ui_lift_bind.
  unfold member.
  destruct (dict_get "tax_details" d) as [[| | | | | |t]|];
    try (erewrite ui_seq_is_ok by (intros; apply metric_member_is_ok); reflexivity);
    cbn [members_of andb];
    (erewrite ui_seq_is_ok by (intros; apply metric_member_is_ok));
    cbv iota beta; (apply (f_equal2 andb); [reflexivity|]; cbv beta);
    (erewrite ui_seq_is_ok by (intros; apply metric_member_is_ok));
    cbv iota beta; (apply (f_equal2 andb); [reflexivity|]; cbv beta);
    (rewrite (ui_seq_is_ok true) by (intros; apply st_is_ok)); cbn [andb];
    (rewrite (ui_seq_is_ok true) by (intros; apply st_is_ok)); cbn [andb];
    rewrite ui_lift_bind;
    (rewrite (ui_seq_is_ok true) by (intros; apply st_is_ok)); cbn [andb];
    (erewrite ui_seq_is_ok by (intros; apply markdown_amount_is_ok));
    cbv iota beta; (apply (f_equal2 andb); [reflexivity|]; cbv beta);
    (erewrite ui_seq_is_ok by (intros; apply markdown_amount_is_ok));
    cbv iota beta; (apply (f_equal2 andb); [reflexivity|]; cbv beta);
    apply markdown_amount_is_ok.
Qed.

Lemma line_items_table_is_ok (U : ui_env) (d : list (string * pyvalue))
    (out : list st_call) :
  is_ok (fst (line_items_table U (PyDict d) out)) =
  negb (py_truthy U (member d "line_items" (PyList [])))
  || is_ok (DataFrame U (member d "line_items" (PyList []))).
Proof.
  unfold line_items_table. cbn [py_get].
  rewrite (ui_seq_is_ok true) by (intros; apply st_is_ok). cbn [andb].
  rewrite (ui_seq_is_ok true) by (intros; apply st_is_ok). cbn [andb].
  rewrite ui_lift_bind. fold (member d "line_items" (PyList [])).
  destruct (py_truthy U (member d "line_items" (PyList []))); [|reflexivity].
  unfold ui_bind, ui_lift. cbn [negb orb fst].
  now destruct (DataFrame U (member d "line_items" (PyList []))).
Qed.

Lemma additional_information_is_ok (U : ui_env) (d : list (string * pyvalue))
    (out : list st_call) :
  is_ok (fst (additional_information U (PyDict d) out)) = true.
Proof.
  unfold additional_information, ui_bind, ui_lift, ui_ret, st. cbn [py_get fst snd].
  destruct (py_truthy U match dict_get "payment_terms" d with
                        | Some x => x | None => PyNone end);
    [|destruct (py_truthy U match dict_get "notes" d with
                            | Some x => x | None => PyNone end)];
    cbn [fst snd];
    repeat match goal with
           | |- context [if ?b then _ else _] => destruct b; cbn [fst snd]
           end;
    reflexivity.
Qed.

Lemma raw_json_and_download_is_ok (U : ui_env) (d : list (string * pyvalue))
    (out : list st_call) :
  is_ok (fst (raw_json_and_download U (PyDict d) out)) = is_ok (json_dumps U (PyDict d)).
Proof.
  unfold raw_json_and_download, ui_bind, ui_lift, st. cbn [py_get fst snd].
  now destruct (json_dumps U (PyDict d)).
Qed.

(** When the branch of a parsed invoice reaches its end, for a record. *)
Lemma show_invoice_is_ok (U : ui_env) (d : list (string * pyvalue)) (out : list st_call) :
  is_ok (fst (show_invoice U (PyDict d) out)) = renders U d.
Proof.
  unfold show_invoice, renders. cbv zeta.
  rewrite (ui_seq_is_ok true) by (intros; apply st_is_ok). cbn [andb].
  rewrite (ui_seq_is_ok true) by (intros; apply st_is_ok). cbn [andb].
  rewrite (ui_seq_is_ok _ _ _ _ (fun o => basic_information_is_ok U d o)).
  rewrite (ui_seq_is_ok _ _ _ _ (fun o => financial_summary_is_ok U d o)).
  rewrite (ui_seq_is_ok _ _ _ _ (fun o => line_items_table_is_ok U d o)).
  rewrite (ui_seq_is_ok _ _ _ _ (fun o => additional_information_is_ok U d o)).
  rewrite raw_json_and_download_is_ok. cbv zeta. cbn [andb].
  rewrite !andb_assoc. reflexivity.
Qed.

Lemma is_ok_false {A} (r : res A) : is_ok r = false -> exists e, r = Raise e.
Proof. destruct r; [discriminate|eauto]. Qed.

Lemma show_result_of_record (U : ui_env) (d : list (string * pyvalue)) (out : list st_call) :
  show_result U (PyDict d) out =
  match dict_get "error" d with
  | Some _ => show_failure U (PyDict d) out
  | None => show_invoice U (PyDict d) out
  end.
Proof.
  unfold show_result, ui_bind, ui_lift. cbn [py_in].
  now destruct (dict_get "error" d).
Qed.

Lemma show_failure_output (U : ui_env) (d : list (string * pyvalue)) (message : pyvalue)
    (out : list st_call) :
  dict_get "error" d = Some message ->
  show_failure U (PyDict d) out =
  (Ok tt, (out ++ failure_output U message (dict_get "raw_response" d))%list).
Proof.
  intros He. unfold show_failure, failure_output, ui_bind, ui_lift, ui_ret, st.
  cbn [py_getitem py_in]. rewrite He.
  destruct (dict_get "raw_response" d); cbn; now rewrite <- ?app_assoc.
Qed.

(** X16. A result with a member [error], as the three that the parser
    builds and as any decoded reply that has one, is shown as a
    failure: after the spinner, the message, and the raw reply in an
    expander exactly when the result has the member [raw_response];
    nothing of the invoice is shown and nothing is raised. *)
Theorem result_with_error_is_shown_as_failure (U : ui_env) (E : env) (f : stream)
    (d : list (string * pyvalue)) (message : pyvalue) :
  fst (run (parse_invoice_with_claude E) f) = Ok (PyDict d) ->
  dict_get "error" d = Some message ->
  on_upload U E f [] =
  (Ok tt,
   St_spinner "🔍 Analyzing invoice... This may take a few seconds."
   :: St_error ("❌ Error: " ++ py_str U message)
   :: match dict_get "raw_response" d with
      | Some raw => [St_expander "See raw API response"; St_code raw]
      | None => []
      end).
Proof.
  intros Hp He. unfold on_upload, ui_bind, ui_lift, st. cbn [fst snd app].
  rewrite Hp, show_result_of_record, He.
  now rewrite (show_failure_output U d message _ He).
Qed.

Lemma result_with_error_is_shown_as_failure_witness :
  on_upload sample_ui (digital_env fenced_garbage) sample_file [] =
  (Ok tt,
   [ St_spinner "🔍 Analyzing invoice... This may take a few seconds.";
     St_error "❌ Error: Failed to parse Claude's response as JSON: Expecting value: line 1 column 1 (char 0)";
     St_expander "See raw API response";
     St_code (PyStr (nl ++ "not json" ++ nl)) ]).
Proof.
  apply (result_with_error_is_shown_as_failure sample_ui (digital_env fenced_garbage)
           sample_file
           [("error",
             PyStr "Failed to parse Claude's response as JSON: Expecting value: line 1 column 1 (char 0)");
            ("raw_response", PyStr (nl ++ "not json" ++ nl))]
           (PyStr "Failed to parse Claude's response as JSON: Expecting value: line 1 column 1 (char 0)"));
    vm_compute; reflexivity.
Defined.

Lemma record_has_no_error_member (d : list (string * pyvalue)) :
  is_invoice_record (PyDict d) = true -> dict_get "error" d = None.
Proof.
  cbn [is_invoice_record]. induction d as [|[k x] d IH]; [reflexivity|].
  cbn [forallb fst]. intros H. apply andb_true_iff in H. destruct H as [Hk Hd].
  cbn [dict_get]. rewrite (schema_field_is_not_error k Hk). now apply IH.
Qed.

(** X17. An InvoiceRecord, however partial, is never taken for a
    failure: the page goes to the branch of a parsed invoice. *)
Theorem invoice_record_is_shown_as_invoice (U : ui_env) (v : pyvalue) (out : list st_call) :
  is_invoice_record v = true ->
  show_result U v out = show_invoice U v out.
Proof.
  intros H. destruct v as [| | | | | |d]; try discriminate.
  now rewrite show_result_of_record, (record_has_no_error_member d H).
Qed.

Lemma invoice_record_is_shown_as_invoice_witness :
  show_result sample_ui (PyDict a_record) [] = show_invoice sample_ui (PyDict a_record) [].
Proof. apply invoice_record_is_shown_as_invoice. vm_compute. reflexivity. Defined.

(** X18. A decoded reply that is not a record - null, a boolean, a
    number, a text, a list - never gets shown: the page raises a
    [TypeError] at the test or at the indexing of [error], or an
    [AttributeError] at the first [get]. *)
Theorem result_that_is_no_record_breaks_the_page (U : ui_env) (v : pyvalue)
    (out : list st_call) :
  is_record v = false ->
  exists e,
    fst (show_result U v out) = Raise e
    /\ (exn_class_of e = OtherException "TypeError" \/ exn_class_of e = AttributeError).
Proof.
  intros H. unfold show_result, ui_bind, ui_lift.
  destruct v as [| | | |s|l|d]; try discriminate; cbn [py_in];
    try (eexists; split; [reflexivity|left; reflexivity]).
  - destruct (contains "error" s).
    + eexists. split; [reflexivity|left; reflexivity].
    + eexists. split; [reflexivity|right; reflexivity].
  - destruct (existsb (fun x => py_eq_str x "error") l).
    + eexists. split; [reflexivity|left; reflexivity].
    + eexists. split; [reflexivity|right; reflexivity].
Qed.

Lemma result_that_is_no_record_breaks_the_page_witness :
  exists e,
    fst (show_result sample_ui (PyList [PyInt 1; PyInt 2]) []) = Raise e
    /\ (exn_class_of e = OtherException "TypeError" \/ exn_class_of e = AttributeError).
Proof. apply result_that_is_no_record_breaks_the_page. reflexivity. Defined.

(** X19. When the vendor, the buyer or the tax details of a decoded
    record are present without being records - [null], as the prompt
    asks for what is not found, or a text - the page raises before
    it has shown the invoice to its end. *)
Theorem section_that_is_no_record_breaks_the_page (U : ui_env)
    (d : list (string * pyvalue)) (out : list st_call) :
  dict_get "error" d = None ->
  object_or_absent d "vendor" && object_or_absent d "buyer"
    && object_or_absent d "tax_details" = false ->
  exists e, fst (show_result U (PyDict d) out) = Raise e.
Proof.
  intros He Hs. apply is_ok_false.
  rewrite show_result_of_record, He, show_invoice_is_ok. unfold renders. cbv zeta.
  destruct (object_or_absent d "vendor"); [|reflexivity].
  destruct (object_or_absent d "buyer"); [|reflexivity].
  destruct (object_or_absent d "tax_details"); [discriminate|].
  cbn [andb]. now rewrite andb_false_r.
Qed.

Lemma section_that_is_no_record_breaks_the_page_witness :
  exists e,
    fst (show_result sample_ui
           (PyDict [("invoice_number", PyStr "A1"); ("vendor", PyNone)]) []) = Raise e.
Proof.
  apply section_that_is_no_record_breaks_the_page; vm_compute; reflexivity.
Defined.

(** X20. When the subtotal or the total amount of a decoded record is
    a text, not a number, the page raises before it has shown the
    invoice to its end. *)
Theorem amount_as_text_breaks_the_page (U : ui_env) (d : list (string * pyvalue))
    (key s : string) (out : list st_call) :
  dict_get "error" d = None ->
  key = "subtotal" \/ key = "total_amount" ->
  dict_get key d = Some (PyStr s) ->
  exists e, fst (show_result U (PyDict d) out) = Raise e.
Proof.
  intros He Hk Hs. apply is_ok_false.
  rewrite show_result_of_record, He, show_invoice_is_ok. unfold renders. cbv zeta.
  assert (is_ok (format_currency U (member d key PyNone) (member d "currency" (PyStr "INR")))
          = false) as Hf.
  { rewrite format_currency_is_ok. unfold member at 1. now rewrite Hs. }
  destruct Hk as [-> | ->]; rewrite Hf; rewrite ?andb_false_r; reflexivity.
Qed.

Lemma amount_as_text_breaks_the_page_witness :
  exists e,
    fst (show_result sample_ui
           (PyDict [("invoice_number", PyStr "A1"); ("total_amount", PyStr "118.00")]) [])
    = Raise e.
Proof.
  apply (amount_as_text_breaks_the_page sample_ui _ "total_amount" "118.00");
    [reflexivity | right; reflexivity | reflexivity].
Defined.

(** X21. A decoded record without a member [error] is shown to the
    end, download button included, as soon as its vendor, buyer and
    tax details are records or absent, its six amounts are numbers
    that Python formats or [null] or absent, its line items are
    empty or make a table, and it can be written as JSON: no other
    member, whatever its value, makes the page raise. *)
Theorem well_shaped_record_is_shown (U : ui_env) (d : list (string * pyvalue))
    (out : list st_call) :
  dict_get "error" d = None ->
  renders U d = true ->
  fst (show_result U (PyDict d) out) = Ok tt.
Proof.
  intros He Hr. rewrite show_result_of_record, He.
  pose proof (show_invoice_is_ok U d out) as H. rewrite Hr in H.
  now destruct (fst (show_invoice U (PyDict d) out)) as [[]|].
Qed.

Lemma well_shaped_record_is_shown_witness :
  fst (show_result sample_ui (PyDict a_record) []) = Ok tt.
Proof. apply well_shaped_record_is_shown; vm_compute; reflexivity. Defined.
